(** * Inventory projection service (InventoryProjectionService)

    A shallow embedding of the day-by-day inventory projection of
    [InventoryProjectionService] and of its summary pass, with the
    properties of the specification proved about it.

    Conventions of the embedding.
    - A JavaScript [number] is idealised as an exact rational ([Q]); a
      nullable number is an [option Q] ([None] is [null]).  Truthiness
      of a number ([x || d], [if (x)]) is "present and not zero".
    - [Math.sqrt] is a parameter [sqrt : Q -> Q] of the model: nothing is
      assumed about it except, where stated, that it respects equality of
      rationals.
    - A [Date] is its time value, the milliseconds since the epoch; the
      hidden clock [new Date()] is the parameter [now], read at one
      instant for a whole request, and the host's time zone is a fixed
      offset [tz] (milliseconds east of UTC).
    - Day counts and horizons are integers.
    - A calendar date text ['YYYY-MM-DD'] is represented by the number of
      days since 1970-01-01 that it denotes: two such texts are the same
      string exactly when the day numbers are equal, and [new Date(text)]
      is the UTC midnight of that day. *)

From Stdlib Require Import ZArith QArith Qminmax Qround List Bool String Lia Lqa.
From Stdlib Require Import Setoid Morphisms Sorted Permutation.
Import ListNotations.

Local Open Scope Z_scope.

(** ** Dates *)

Module JsDate.

Definition Date := Z.

Definition msPerDay : Z := 86400000.

Definition getTime (d : Date) : Z := d.

(** [new Date('YYYY-MM-DD')]: UTC midnight of the day. *)
Definition parse (dayNumber : Z) : Date := dayNumber * msPerDay.

(** [d.toISOString().split('T')[0]]: the UTC calendar day. *)
Definition toISODate (d : Date) : Z := d / msPerDay.

(** [c = new Date(start); c.setDate(start.getDate() + day)]: the same
    local time of day, [day] days later; in a zone of fixed offset, with
    no daylight-saving change in between, that is [day] times 24 hours. *)
Definition addDays (start : Date) (day : Z) : Date := start + day * msPerDay.

(** Month (1..12) of a day number in the proleptic Gregorian calendar. *)
Definition monthOfDay (dayNumber : Z) : Z :=
  let z := dayNumber + 719468 in
  let era := z / 146097 in
  let doe := z - era * 146097 in
  let yoe := (doe - doe / 1460 + doe / 36524 - doe / 146096) / 365 in
  let doy := doe - (365 * yoe + yoe / 4 - yoe / 100) in
  let mp := (5 * doy + 2) / 153 in
  if mp <? 10 then mp + 3 else mp - 9.

(** [d.getMonth()]: 0..11, in the host's zone. *)
Definition getMonth (tz : Z) (d : Date) : Z :=
  monthOfDay ((d + tz) / msPerDay) - 1.

End JsDate.

Import JsDate.

(** ** Data model *)

Inductive Status : Type := optimal | warning | critical | stockout.

Definition Status_eqb (a b : Status) : bool :=
  match a, b with
  | optimal, optimal | warning, warning
  | critical, critical | stockout, stockout => true
  | _, _ => false
  end.

Inductive RiskLevel : Type := high | medium | low.

Record ForecastData : Type := {
  product_id : string;
  location_id : string;
  postdate : Z;
  forecast : option Q;
  actual : option Q
}.

Record InventoryProjection : Type := {
  date : Z;
  projected_inventory : Q;
  forecast_demand : Q;
  current_stock : Q;
  cumulative_demand : Q;
  reorder_point : Q;
  safety_stock : Q;
  status : Status
}.

(** A row of [inventory_series]. *)
Record InventorySeries : Type := {
  id : Z;
  series_product_id : string;
  series_location_id : string
}.

(** A row of [inventory_series_data]. *)
Record InventoryItem : Type := {
  series_id : Z;
  period_date : Z;
  value : option Q
}.

Record ProjectionParams : Type := {
  param_product_id : option string;
  param_location_id : option string;
  param_warehouse_id : option Z;
  projection_days : option Z
}.

Record SeriesProjections : Type := {
  result_product_id : string;
  result_location_id : string;
  result_warehouse_id : Z;
  projections : list InventoryProjection
}.

(** What a query of the hosted backend resolves to: [{ data, error }]. *)
Record Response (A : Type) : Type := {
  data : option (list A);
  error : option string
}.
Arguments data {A} _.
Arguments error {A} _.

(** The three reads of the backend that [calculateProjections] issues;
    an absent argument is a filter that was not added to the query. *)
Record Supabase : Type := {
  (* from('inventory_series').select(...) [.eq('product_id', p)] [.eq('location_id', l)] *)
  select_inventory_series : option string -> option string -> Response InventorySeries;
  (* from('inventory_series_data').select('*').in('series_id', ids).order('period_date') *)
  select_inventory_series_data : list Z -> Response InventoryItem;
  (* from('forecast_with_fitted_history').select(...).gte('postdate', day).order('postdate') [.eq ...] *)
  select_forecast : Z -> option string -> option string -> Response ForecastData
}.

Record Summary : Type := {
  stockoutDays : nat;
  criticalDays : nat;
  warningDays : nat;
  minInventory : Q;
  totalDemand : Q;
  riskLevel : RiskLevel
}.

Local Open Scope Q_scope.

(** ** JavaScript idioms *)

(** [x || d] on a nullable number. *)
Definition orElse (x : option Q) (d : Q) : Q :=
  match x with
  | Some v => if Qeq_bool v 0 then d else v
  | None => d
  end.

(** [a > b] on numbers. *)
Definition Qgt_bool (a b : Q) : bool := negb (Qle_bool a b).

(** [a.reduce(f)] without an initial value, on a non-empty array. *)
Definition reduce1 {A : Type} (f : A -> A -> A) (first : A) (rest : list A) : A :=
  fold_left f rest first.

(** ** The service *)

Section Service.

Variable sqrt : Q -> Q.   (* Math.sqrt *)
Variable tz : Z.          (* the host's zone offset *)
Variable now : Date.      (* new Date() *)

(** *** getSeasonalAdjustment *)

Definition seasonalFactors (month : Z) : option Q :=
  match month with
  | 1%Z => Some 0.9
  | 2%Z => Some 0.95
  | 3%Z => Some 1.0
  | 4%Z => Some 1.05
  | 5%Z => Some 1.1
  | 6%Z => Some 1.15
  | 7%Z => Some 1.2
  | 8%Z => Some 1.15
  | 9%Z => Some 1.05
  | 10%Z => Some 1.1
  | 11%Z => Some 1.25
  | 12%Z => Some 1.3
  | _ => None
  end.

Definition getSeasonalAdjustment (date : Date) : Q :=
  let month := (getMonth tz date + 1)%Z in
  orElse (seasonalFactors month) 1.0.

(** *** getDailyDemand *)

Definition timeDiff (date : Date) (f : ForecastData) : Z :=
  Z.abs (getTime (parse (postdate f)) - getTime date).

(** The callback of the [reduce]. *)
Definition closer (date : Date) (prev curr : ForecastData) : ForecastData :=
  let prevDiff := timeDiff date prev in
  let currDiff := timeDiff date curr in
  if (currDiff <? prevDiff)%Z then curr else prev.

(** [a.sort((a, b) => time(a) - time(b))]: a stable sort. *)
Fixpoint insertByDate (x : ForecastData) (l : list ForecastData) : list ForecastData :=
  match l with
  | [] => [x]
  | y :: l' =>
      if (getTime (parse (postdate x)) <=? getTime (parse (postdate y)))%Z
      then x :: y :: l'
      else y :: insertByDate x l'
  end.

Definition sortByDate (l : list ForecastData) : list ForecastData :=
  fold_right insertByDate [] l.

Definition hasForecast (f : ForecastData) : bool :=
  match forecast f with Some _ => true | None => false end.

(** The part of [getDailyDemand] after the exact match has failed. *)
Definition closestDemand (forecasts : list ForecastData) (date : Date) : Q :=
  let sortedForecasts := sortByDate (filter hasForecast forecasts) in
  match sortedForecasts with
  | [] => 0
  | first :: rest =>
      let closest := reduce1 (closer date) first rest in
      orElse (forecast closest) 0
  end.

Definition getDailyDemand (forecasts : list ForecastData) (date : Date) : Q :=
  match forecasts with
  | [] => 0
  | _ :: _ =>
      let dateStr := toISODate date in
      match find (fun f => (postdate f =? dateStr)%Z) forecasts with
      | Some exactMatch =>
          match forecast exactMatch with
          | Some v => if Qeq_bool v 0 then closestDemand forecasts date else v
          | None => closestDemand forecasts date
          end
      | None => closestDemand forecasts date
      end
  end.

(** *** calculateEnhancedSafetyStock *)

Definition calculateEnhancedSafetyStock (series : InventorySeries)
    (forecasts : list ForecastData) : Q :=
  match forecasts with
  | [] => 10
  | _ :: _ =>
      let demands := map (fun f => orElse (forecast f) 0) forecasts in
      let len := inject_Z (Z.of_nat (List.length demands)) in
      let avgDemand := fold_left (fun sum d => sum + d) demands 0 / len in
      let variance :=
        fold_left (fun sum d => sum + (d - avgDemand) ^ 2) demands 0 / len in
      let stdDev := sqrt variance in
      let leadTime := 14 in
      let serviceLevel := 1.65 in
      let enhancedSafetyStock := serviceLevel * stdDev * sqrt (leadTime / 7) in
      Qmax enhancedSafetyStock 10
  end.

(** *** determineEnhancedInventoryStatus *)

Definition determineEnhancedInventoryStatus
    (projectedInventory enhancedSafetyStock reorderPoint : Q) : Status :=
  if Qle_bool projectedInventory 0 then stockout
  else if Qle_bool projectedInventory (enhancedSafetyStock * 0.5) then critical
  else if Qle_bool projectedInventory enhancedSafetyStock then warning
  else optimal.

(** *** calculateInventoryTimeline *)

(** The variables the day loop assigns. *)
Record LoopState : Type := {
  st_projections : list InventoryProjection;
  runningInventory : Q;
  cumulativeDemand : Q
}.

Definition loopBody (forecasts : list ForecastData) (startDate : Date)
    (currentInventory enhancedSafetyStock : Q) (day : Z) (st : LoopState)
    : LoopState :=
  let currentDate := addDays startDate day in
  let dateStr := toISODate currentDate in
  let baseDailyDemand := getDailyDemand forecasts currentDate in
  let seasonalAdjustment := getSeasonalAdjustment currentDate in
  let adjustedDemand := baseDailyDemand * seasonalAdjustment in
  let cumulativeDemand' := cumulativeDemand st + adjustedDemand in
  let projectedInventory := currentInventory - cumulativeDemand' in
  let reorderPoint := enhancedSafetyStock * 1.5 in
  let projectedInventory' :=
    if Qle_bool projectedInventory reorderPoint && (0 <? day)%Z then
      let maxCapacity := currentInventory * 2 in
      let replenishmentQuantity := maxCapacity - projectedInventory in
      if Qgt_bool replenishmentQuantity 0
      then projectedInventory + replenishmentQuantity
      else projectedInventory
    else projectedInventory in
  let status :=
    determineEnhancedInventoryStatus projectedInventory' enhancedSafetyStock
      reorderPoint in
  {| st_projections :=
       st_projections st ++
       [ {| date := dateStr;
            projected_inventory := Qmax 0 projectedInventory';
            forecast_demand := adjustedDemand;
            current_stock := currentInventory;
            cumulative_demand := cumulativeDemand';
            reorder_point := reorderPoint;
            safety_stock := enhancedSafetyStock;
            status := status |} ];
     runningInventory := projectedInventory';
     cumulativeDemand := cumulativeDemand' |}.

(** [for (day = from; day <= projectionDays; day++) body]: [n] is the
    number of iterations left. *)
Fixpoint forDays (body : Z -> LoopState -> LoopState) (n : nat) (day : Z)
    (st : LoopState) : LoopState :=
  match n with
  | O => st
  | S n' => forDays body n' (day + 1)%Z (body day st)
  end.

Definition currentInventoryOf (inventoryData : list InventoryItem) : Q :=
  fold_left (fun sum item => sum + orElse (value item) 0) inventoryData 0.

Definition calculateInventoryTimeline (series : InventorySeries)
    (inventoryData : list InventoryItem) (forecasts : list ForecastData)
    (projectionDays : Z) : list InventoryProjection :=
  let startDate := now in
  let currentInventory := currentInventoryOf inventoryData in
  let enhancedSafetyStock := calculateEnhancedSafetyStock series forecasts in
  st_projections
    (forDays (loopBody forecasts startDate currentInventory enhancedSafetyStock)
       (Z.to_nat (projectionDays + 1)) 0%Z
       {| st_projections := [];
          runningInventory := currentInventory;
          cumulativeDemand := 0 |}).

(** *** calculateProjections *)

(** [if (params.x) query = query.eq('x', params.x)]: an empty text is
    falsy and adds no filter. *)
Definition eqFilter (x : option string) : option string :=
  match x with
  | Some EmptyString => None
  | _ => x
  end.

(** [params.projection_days || 90] *)
Definition projectionDaysOf (params : ProjectionParams) : Z :=
  match projection_days params with
  | Some n => if (n =? 0)%Z then 90%Z else n
  | None => 90%Z
  end.

(** The callback of [inventorySeries.map]. *)
Definition projectSeries (inventoryData : option (list InventoryItem))
    (forecastData : option (list ForecastData)) (params : ProjectionParams)
    (series : InventorySeries) : SeriesProjections :=
  let relevantInventoryData :=
    match inventoryData with
    | Some rows => filter (fun inv => (series_id inv =? id series)%Z) rows
    | None => []
    end in
  let relevantForecasts :=
    match forecastData with
    | Some rows =>
        filter (fun f => String.eqb (product_id f) (series_product_id series) &&
                         String.eqb (location_id f) (series_location_id series)) rows
    | None => []
    end in
  let projections :=
    calculateInventoryTimeline series relevantInventoryData relevantForecasts
      (projectionDaysOf params) in
  {| result_product_id := series_product_id series;
     result_location_id := series_location_id series;
     result_warehouse_id := 1;
     projections := projections |}.

(** [inl e] is the rejection of the promise with [e]. *)
Definition calculateProjections (supabase : Supabase) (params : ProjectionParams)
    : string + list SeriesProjections :=
  let inventoryQuery :=
    select_inventory_series supabase (eqFilter (param_product_id params))
      (eqFilter (param_location_id params)) in
  match error inventoryQuery with
  | Some inventoryError => inl inventoryError
  | None =>
      match data inventoryQuery with
      | None | Some [] => inr []
      | Some inventorySeries =>
          let seriesIds := map id inventorySeries in
          let inventoryDataQuery := select_inventory_series_data supabase seriesIds in
          match error inventoryDataQuery with
          | Some inventoryDataError => inl inventoryDataError
          | None =>
              let forecastQuery :=
                select_forecast supabase (toISODate now)
                  (eqFilter (param_product_id params))
                  (eqFilter (param_location_id params)) in
              match error forecastQuery with
              | Some forecastError => inl forecastError
              | None =>
                  inr (map (projectSeries (data inventoryDataQuery)
                              (data forecastQuery) params) inventorySeries)
              end
          end
      end
  end.

End Service.

(** *** getProjectionSummary *)

Definition countStatus (s : Status) (projections : list InventoryProjection) : nat :=
  List.length (filter (fun p => Status_eqb (status p) s) projections).

(** [Math.min(...xs)] on a non-empty spread. *)
Definition Math_min (first : Q) (rest : list Q) : Q := fold_left Qmin rest first.

Definition getProjectionSummary (projections : list InventoryProjection)
    : option Summary :=
  match projections with
  | [] => None
  | p0 :: ps =>
      let stockoutDays := countStatus stockout projections in
      let criticalDays := countStatus critical projections in
      let warningDays := countStatus warning projections in
      let minInventory :=
        Math_min (projected_inventory p0) (map projected_inventory ps) in
      let totalDemand :=
        orElse (option_map cumulative_demand
                  (nth_error projections (List.length projections - 1))) 0 in
      Some {| stockoutDays := stockoutDays;
              criticalDays := criticalDays;
              warningDays := warningDays;
              minInventory := minInventory;
              totalDemand := totalDemand;
              riskLevel := if (0 <? stockoutDays)%nat then high
                           else if (7 <? criticalDays)%nat then medium
                           else low |}
  end.

(** ** Concrete inputs for running the model *)

Definition mkForecast (day : Z) (f : option Q) : ForecastData :=
  {| product_id := "P"; location_id := "L"; postdate := day;
     forecast := f; actual := None |}.

Definition mkItem (v : option Q) : InventoryItem :=
  {| series_id := 1; period_date := 0; value := v |}.

Definition aSeries : InventorySeries :=
  {| id := 1; series_product_id := "P"; series_location_id := "L" |}.

(** A concrete [Math.sqrt]: the square root rounded down to six
    decimals. *)
Definition sqrt6 (q : Q) : Q :=
  inject_Z (Z.sqrt (Qfloor (q * 1000000000000))) / 1000000.

(** ** Notions of the specification *)

(** A nullable quantity read as a number, null as 0. *)
Definition nullAsZero (x : option Q) : Q :=
  match x with Some v => v | None => 0 end.

Definition Qsum (xs : list Q) : Q := fold_right Qplus 0 xs.

(** Baseline inventory in the words of the specification: the sum of all
    observation values, null as 0. *)
Definition baselineInventory (inventoryData : list InventoryItem) : Q :=
  Qsum (map (fun item => nullAsZero (value item)) inventoryData).

(** Population variance of a sample: the mean of the squared deviations
    from the mean. *)
Definition mean (xs : list Q) : Q :=
  Qsum xs / inject_Z (Z.of_nat (List.length xs)).

Definition populationVariance (xs : list Q) : Q :=
  Qsum (map (fun x => (x - mean xs) * (x - mean xs)) xs)
  / inject_Z (Z.of_nat (List.length xs)).

(** Status of a stock level against the safety stock, in the words of the
    specification. *)
Inductive StatusOf (inventory safetyStock : Q) : Status -> Prop :=
| is_stockout :
    inventory <= 0 -> StatusOf inventory safetyStock stockout
| is_critical :
    0 < inventory -> inventory <= safetyStock * 0.5 ->
    StatusOf inventory safetyStock critical
| is_warning :
    0 < inventory -> safetyStock * 0.5 < inventory -> inventory <= safetyStock ->
    StatusOf inventory safetyStock warning
| is_optimal :
    0 < inventory -> safetyStock * 0.5 < inventory -> safetyStock < inventory ->
    StatusOf inventory safetyStock optimal.

(** [c] is the first point of [candidates] at the least distance in time
    from [date]. *)
Definition FirstClosest (date : Date) (candidates : list ForecastData)
    (c : ForecastData) : Prop :=
  exists before after,
    candidates = before ++ c :: after /\
    (forall f, In f before -> (timeDiff date c < timeDiff date f)%Z) /\
    (forall f, In f after -> (timeDiff date c <= timeDiff date f)%Z).

(** The points are in ascending order of date. *)
Definition AscendingDates (l : list ForecastData) : Prop :=
  StronglySorted (fun f g => (postdate f <= postdate g)%Z) l.

(** [sorted] is [l] put in ascending order of date, the points of one
    date staying in the order they have in [l]. *)
Definition InDateOrder (l sorted : list ForecastData) : Prop :=
  Permutation sorted l /\
  AscendingDates sorted /\
  forall day,
    filter (fun f => (postdate f =? day)%Z) sorted
    = filter (fun f => (postdate f =? day)%Z) l.

(** No point of exactly that date, or the first one has a null forecast. *)
Definition NoExactForecast (forecasts : list ForecastData) (date : Date) : Prop :=
  match find (fun f => (postdate f =? toISODate date)%Z) forecasts with
  | Some f => forecast f = None
  | None => True
  end.

(** The first point of exactly that date, if any, does not forecast zero. *)
Definition ExactForecastNotZero (forecasts : list ForecastData) (date : Date) : Prop :=
  forall f v,
    find (fun f => (postdate f =? toISODate date)%Z) forecasts = Some f ->
    forecast f = Some v -> ~ v == 0.

(** What the base daily demand is, case by case. *)
Inductive BaseDemand (forecasts : list ForecastData) (date : Date) : Q -> Prop :=
| base_of_no_forecast :
    forecasts = [] -> BaseDemand forecasts date 0
| base_of_exact_match : forall f v,
    find (fun f => (postdate f =? toISODate date)%Z) forecasts = Some f ->
    forecast f = Some v -> ~ v == 0 ->
    BaseDemand forecasts date v
| base_of_no_value :
    forecasts <> [] -> NoExactForecast forecasts date ->
    filter hasForecast forecasts = [] ->
    BaseDemand forecasts date 0
| base_of_closest : forall c,
    forecasts <> [] -> NoExactForecast forecasts date ->
    FirstClosest date (sortByDate (filter hasForecast forecasts)) c ->
    BaseDemand forecasts date (orElse (forecast c) 0).

(** The base daily demand as the specification words it: the forecast of
    the point of that date if there is one, else of the first-encountered
    closest point, and 0 without forecasts. *)
Definition specBaseDemand (forecasts : list ForecastData) (date : Date) : Q :=
  match forecasts with
  | [] => 0
  | first :: rest =>
      match find (fun f => (postdate f =? toISODate date)%Z) forecasts with
      | Some f => nullAsZero (forecast f)
      | None => nullAsZero (forecast (fold_left (closer date) rest first))
      end
  end.

Section Projection.

Variable sqrt : Q -> Q.
Variable tz : Z.
Variable now : Date.
Variable series : InventorySeries.
Variable inventoryData : list InventoryItem.
Variable forecasts : list ForecastData.

(** The date of day [d] of the projection. *)
Definition dateOfDay (d : nat) : Date := addDays now (Z.of_nat d).

(** The seasonally adjusted demand of day [d]. *)
Definition adjustedDemandOn (d : nat) : Q :=
  getDailyDemand forecasts (dateOfDay d) * getSeasonalAdjustment tz (dateOfDay d).

(** The adjusted demand accumulated over the first [n] days. *)
Fixpoint cumulativeBefore (n : nat) : Q :=
  match n with
  | O => 0
  | S k => cumulativeBefore k + adjustedDemandOn k
  end.

(** The cumulative adjusted demand through day [d], day [d] included. *)
Definition cumulativeThrough (d : nat) : Q := cumulativeBefore (S d).

(** The variables of the day loop of [calculateInventoryTimeline] once
    the days [0..d] have been processed. *)
Definition stateAfterDay (d : nat) : LoopState :=
  forDays
    (loopBody tz forecasts now (currentInventoryOf inventoryData)
       (calculateEnhancedSafetyStock sqrt series forecasts))
    (S d) 0%Z
    {| st_projections := [];
       runningInventory := currentInventoryOf inventoryData;
       cumulativeDemand := 0 |}.

End Projection.

(** Every non-null forecast value is non-negative. *)
Definition NonNegativeForecasts (forecasts : list ForecastData) : Prop :=
  forall f v, In f forecasts -> forecast f = Some v -> 0 <= v.

Definition Status_eq_dec (a b : Status) : {a = b} + {a <> b}.
Proof. decide equality. Defined.

(** The entry that the loop emits for day [d], read off the loop
    variables as they are once day [d] has been processed. *)
Definition EmittedFor (sqrt : Q -> Q) (tz : Z) (now : Date)
    (series : InventorySeries) (inventoryData : list InventoryItem)
    (forecasts : list ForecastData) (d : nat) (p : InventoryProjection) : Prop :=
  let st := stateAfterDay sqrt tz now series inventoryData forecasts d in
  let safetyStock := calculateEnhancedSafetyStock sqrt series forecasts in
  date p = toISODate (dateOfDay now d) /\
  projected_inventory p = Qmax 0 (runningInventory st) /\
  forecast_demand p = adjustedDemandOn tz now forecasts d /\
  current_stock p = currentInventoryOf inventoryData /\
  cumulative_demand p = cumulativeDemand st /\
  reorder_point p = safetyStock * 1.5 /\
  safety_stock p = safetyStock /\
  status p =
    determineEnhancedInventoryStatus (runningInventory st) safetyStock
      (safetyStock * 1.5).

(** ** The chart service (InventoryProjectionsChartService)

    A month text ['YYYY-MM'] (years 0000 to 9999) is represented by the
    pair of its year and its month; [localeCompare] on two such texts is
    the order of the pairs, year first. *)

Definition Month : Type := (Z * Z)%type.

Definition Month_eqb (a b : Month) : bool :=
  ((fst a =? fst b) && (snd a =? snd b))%Z.

(** [a.localeCompare(b) <= 0] *)
Definition Month_leb (a b : Month) : bool :=
  ((fst a <? fst b) || ((fst a =? fst b) && (snd a <=? snd b)))%Z.

Definition Month_lt (a b : Month) : Prop :=
  (fst a < fst b \/ (fst a = fst b /\ snd a < snd b))%Z.

(** Year of a day number in the proleptic Gregorian calendar. *)
Definition yearOfDay (dayNumber : Z) : Z :=
  (let z := dayNumber + 719468 in
   let era := z / 146097 in
   let doe := z - era * 146097 in
   let yoe := (doe - doe / 1460 + doe / 36524 - doe / 146096) / 365 in
   let doy := doe - (365 * yoe + yoe / 4 - yoe / 100) in
   let mp := (5 * doy + 2) / 153 in
   let m := if mp <? 10 then mp + 3 else mp - 9 in
   yoe + era * 400 + (if m <=? 2 then 1 else 0))%Z.

(** [d.toISOString().slice(0, 7)] *)
Definition toISOMonth (d : Date) : Month :=
  (yearOfDay (d / msPerDay), monthOfDay (d / msPerDay))%Z.

(** A row of [inventory_series_data] as the chart service reads it
    ([select('*')]): a column the table does not have reads as absent. *)
Record InventoryDataRow : Type := {
  row_series_id : Z;
  row_period_date : Z;
  row_value : option Q;
  row_product_id : option string;
  row_location_id : option string
}.

Record InventoryProjectionRow : Type := {
  projection_month : Month;
  forecasted_demand : Q;
  projected_ending_inventory : Q;
  chart_product_id : string;
  chart_location_id : string
}.

Record ChartDataPoint : Type := {
  point_projection_month : Month;
  point_forecasted_demand : Q;
  point_projected_ending_inventory : Q
}.

Record ChartFilters : Type := {
  filter_product_id : option string;
  filter_location_id : option string;
  filter_customer_id : option string
}.

(** The three reads of the backend that [getChartData] issues. *)
Record ChartSupabase : Type := {
  chart_inventory_series : option string -> option string -> Response InventorySeries;
  chart_inventory_series_data : list Z -> Response InventoryDataRow;
  chart_forecast : option string -> option string -> Response ForecastData
}.

(** The accumulator of the two [reduce]s: a JavaScript object keyed by
    month text, its keys in the order of their first insertion, each
    holding one running total. *)
Definition MonthTotals : Type := list (Month * Q).

(** [if (!acc[month]) acc[month] = { total: 0 }; acc[month].total += amount] *)
Fixpoint addToMonth (month : Month) (amount : Q) (acc : MonthTotals)
    : MonthTotals :=
  match acc with
  | [] => [(month, 0 + amount)]
  | (m, total) :: rest =>
      if Month_eqb m month then (m, total + amount) :: rest
      else (m, total) :: addToMonth month amount rest
  end.

(** [(acc[month] || { total: 0 }).total] *)
Fixpoint totalOfMonth (month : Month) (acc : MonthTotals) : Q :=
  match acc with
  | [] => 0
  | (m, total) :: rest =>
      if Month_eqb m month then total else totalOfMonth month rest
  end.

(** [new Set(keys)], in insertion order. *)
Definition setAdd (set : list Month) (month : Month) : list Month :=
  if existsb (Month_eqb month) set then set else set ++ [month].

Definition setOf (months : list Month) : list Month :=
  fold_left setAdd months [].

(** [rows.sort((a, b) => a.projection_month.localeCompare(b.projection_month))]:
    a stable sort. *)
Fixpoint insertByMonth (x : InventoryProjectionRow)
    (l : list InventoryProjectionRow) : list InventoryProjectionRow :=
  match l with
  | [] => [x]
  | y :: l' =>
      if Month_leb (projection_month x) (projection_month y)
      then x :: y :: l'
      else y :: insertByMonth x l'
  end.

Definition sortByMonth (l : list InventoryProjectionRow)
    : list InventoryProjectionRow :=
  fold_right insertByMonth [] l.

(** [s || ''] on a text that may be absent. *)
Definition orEmpty (s : option string) : string :=
  match s with Some t => t | None => EmptyString end.

Definition inventoryByMonthOf (inventoryData : list InventoryDataRow)
    : MonthTotals :=
  fold_left
    (fun acc item =>
       let month := toISOMonth (parse (row_period_date item)) in
       addToMonth month (orElse (row_value item) 0) acc)
    inventoryData [].

Definition forecastByMonthOf (forecastData : list ForecastData) : MonthTotals :=
  fold_left
    (fun acc item =>
       let month := toISOMonth (parse (postdate item)) in
       addToMonth month (orElse (forecast item) 0) acc)
    forecastData [].

Definition combineInventoryAndForecastData
    (inventoryData : list InventoryDataRow) (forecastData : list ForecastData)
    : list InventoryProjectionRow :=
  let inventoryByMonth := inventoryByMonthOf inventoryData in
  let forecastByMonth := forecastByMonthOf forecastData in
  let allMonths := setOf (map fst inventoryByMonth ++ map fst forecastByMonth) in
  sortByMonth
    (map
       (fun month =>
          let current_inventory := totalOfMonth month inventoryByMonth in
          let forecasted := totalOfMonth month forecastByMonth in
          let projectedEnding := current_inventory - forecasted in
          {| projection_month := month;
             chart_product_id :=
               orEmpty (match inventoryData with
                        | first :: _ => row_product_id first
                        | [] => None
                        end);
             chart_location_id :=
               orEmpty (match inventoryData with
                        | first :: _ => row_location_id first
                        | [] => None
                        end);
             forecasted_demand := forecasted;
             projected_ending_inventory := projectedEnding |})
       allMonths).

Definition orEmptyList {A : Type} (rows : option (list A)) : list A :=
  match rows with Some l => l | None => [] end.

(** [inl e] is the rejection of the promise with [e]. *)
Definition getChartData (supabase : ChartSupabase) (filters : ChartFilters)
    : string + list ChartDataPoint :=
  let inventoryQuery :=
    chart_inventory_series supabase (eqFilter (filter_product_id filters))
      (eqFilter (filter_location_id filters)) in
  match error inventoryQuery with
  | Some inventoryError => inl inventoryError
  | None =>
      match data inventoryQuery with
      | None | Some [] => inr []
      | Some inventorySeries =>
          let seriesIds := map id inventorySeries in
          let inventoryDataQuery := chart_inventory_series_data supabase seriesIds in
          match error inventoryDataQuery with
          | Some inventoryDataError => inl inventoryDataError
          | None =>
              let forecastQuery :=
                chart_forecast supabase (eqFilter (filter_product_id filters))
                  (eqFilter (filter_location_id filters)) in
              match error forecastQuery with
              | Some forecastError => inl forecastError
              | None =>
                  let monthlyData :=
                    combineInventoryAndForecastData
                      (orEmptyList (data inventoryDataQuery))
                      (orEmptyList (data forecastQuery)) in
                  inr (map
                         (fun item =>
                            {| point_projection_month := projection_month item;
                               point_forecasted_demand :=
                                 orElse (Some (forecasted_demand item)) 0;
                               point_projected_ending_inventory :=
                                 orElse (Some (projected_ending_inventory item)) 0 |})
                         monthlyData)
              end
          end
      end
  end.

(** The total of the amounts of the items of one month. *)
Definition monthSum {A : Type} (monthOf : A -> Month) (amount : A -> Q)
    (month : Month) (items : list A) : Q :=
  Qsum (map amount (filter (fun item => Month_eqb (monthOf item) month) items)).

Definition inventoryMonth (item : InventoryDataRow) : Month :=
  toISOMonth (parse (row_period_date item)).

Definition forecastMonth (item : ForecastData) : Month :=
  toISOMonth (parse (postdate item)).

(** ** The supply network graph (SupplyNetworkFlow) *)

Record Position : Type := { pos_x : Q; pos_y : Q }.

(** A node of the network as the data layer supplies it. *)
Record DbNode : Type := {
  node_id : string;
  node_name : option string;
  node_type_id : option string;
  node_status : option string;
  contact_information : option string
}.

Record DbNodeType : Type := {
  type_id : string;
  type_code : string;
  type_name : string;
  icon_name : string
}.

Record FlowNodeData : Type := {
  label : string;
  nodeType : string;
  nodeTypeCode : string;
  iconName : string;
  properties : string;
  data_status : option string;
  color : string
}.

Record FlowNode : Type := {
  flow_id : string;
  flow_type : string;
  position : Position;
  flow_data : FlowNodeData
}.

(** [s || d] on a text that may be absent: the empty text is falsy. *)
Definition orText (s : option string) (d : string) : string :=
  match s with
  | Some EmptyString | None => d
  | Some t => t
  end.

(** [s.toLowerCase()], on the letters A to Z. *)
Definition lowerAscii (c : Ascii.ascii) : Ascii.ascii :=
  let n := Ascii.nat_of_ascii c in
  if ((65 <=? n) && (n <=? 90))%nat then Ascii.ascii_of_nat (n + 32) else c.

Fixpoint toLowerCase (s : string) : string :=
  match s with
  | EmptyString => EmptyString
  | String c rest => String (lowerAscii c) (toLowerCase rest)
  end.

Definition getNodeColor (nodeTypeCode : string) : string :=
  let code := toLowerCase nodeTypeCode in
  if (String.eqb code "factory" || String.eqb code "manufacturer")%string
  then "#ef4444"%string
  else if String.eqb code "warehouse" then "#3b82f6"%string
  else if (String.eqb code "distributor"
           || String.eqb code "distribution_center")%string
  then "#10b981"%string
  else if (String.eqb code "retailer" || String.eqb code "retail")%string
  then "#8b5cf6"%string
  else if String.eqb code "supplier" then "#f59e0b"%string
  else "#6b7280"%string.

(** [a.every((x, i) => p(x, i))], the index starting at [i]. *)
Fixpoint everyFrom {A : Type} (i : nat) (p : A -> nat -> bool) (l : list A)
    : bool :=
  match l with
  | [] => true
  | x :: rest => p x i && everyFrom (S i) p rest
  end.

(** [a.map((x, i) => f(x, i))], the index starting at [i]. *)
Fixpoint mapFrom {A B : Type} (i : nat) (f : A -> nat -> B) (l : list A)
    : list B :=
  match l with
  | [] => []
  | x :: rest => f x i :: mapFrom (S i) f rest
  end.

Definition sameNodeSet (a b : list FlowNode) : bool :=
  (List.length a =? List.length b)%nat &&
  everyFrom 0
    (fun n i =>
       match nth_error b i with
       | Some m => String.eqb (flow_id n) (flow_id m)
       | None => false
       end) a.

(** [saved[id]] on the positions read from the local storage. *)
Fixpoint savedPosition (saved : list (string * Position)) (key : string)
    : option Position :=
  match saved with
  | [] => None
  | (k, pos) :: rest => if String.eqb k key then Some pos else savedPosition rest key
  end.

(** The node list of the graph, built from the nodes of the data layer,
    the positions saved in the local storage and the node types. *)
Definition builtFlowNodes (dbNodes : option (list DbNode))
    (saved : list (string * Position)) (dbNodeTypes : list DbNodeType)
    : list FlowNode :=
  match dbNodes with
  | None => []
  | Some nodes =>
      mapFrom 0
        (fun node index =>
           let typeInfo :=
             find (fun nt =>
                     match node_type_id node with
                     | Some t => String.eqb (type_id nt) t
                     | None => false
                     end) dbNodeTypes in
           let savedPos := savedPosition saved (node_id node) in
           {| flow_id := node_id node;
              flow_type := "supplyNetworkNode";
              position :=
                match savedPos with
                | Some pos => pos
                | None =>
                    {| pos_x := inject_Z (Z.of_nat (index mod 4)) * 250 + 100;
                       pos_y := inject_Z (Z.of_nat (index / 4)) * 200 + 100 |}
                end;
              flow_data :=
                {| label := orText (node_name node) (node_id node);
                   nodeType := orText (node_type_id node) "unknown";
                   nodeTypeCode := orText (option_map type_code typeInfo) "unknown";
                   iconName := orText (option_map icon_name typeInfo) "Package";
                   properties := orText (contact_information node) "{}";
                   data_status := node_status node;
                   color :=
                     getNodeColor
                       (orText (option_map type_code typeInfo) "unknown") |} |})
        nodes
  end.

(** The updater that the node sync effect hands to [setNodes] when it
    runs: [prev => sameNodeSet(prev, built) ? prev : built].  When the
    effect does not run, the local nodes stay as they are. *)
Definition syncNodes (prev built : list FlowNode) : list FlowNode :=
  if sameNodeSet prev built then prev else built.

(** ** Concrete inputs *)

(** 2025-03-15 as a day number, and two instants of that day (UTC). *)
Definition march15 : Z := 20162.

Definition midnight : Date := parse march15.

Definition evening : Date := (parse march15 + 18 * 3600000)%Z.

(** A constant forecast of 50 a day, known for 2025-03-15 only. *)
Definition fiftyADay : list ForecastData := [mkForecast march15 (Some 50)].

(** A point of today's date whose forecast is null, then 50 tomorrow. *)
Definition nullThenFifty : list ForecastData :=
  [mkForecast march15 None; mkForecast (march15 + 1) (Some 50)].

(** A point of today's date whose forecast is zero, then 50 tomorrow. *)
Definition zeroThenFifty : list ForecastData :=
  [mkForecast march15 (Some 0); mkForecast (march15 + 1) (Some 50)].

(** A forecast that is negative. *)
Definition negativeForecast : list ForecastData := [mkForecast march15 (Some (-5))].

(** Forecasts that vary: 40, 60, 50, 50. *)
Definition variedForecast : list ForecastData :=
  [mkForecast march15 (Some 40); mkForecast (march15 + 1) (Some 60);
   mkForecast (march15 + 2) None; mkForecast (march15 + 3) (Some 50)].

Definition noParams : ProjectionParams :=
  {| param_product_id := None; param_location_id := None;
     param_warehouse_id := None; projection_days := None |}.

(** A backend that knows one series and has no observation and no
    forecast for it. *)
Definition seriesWithoutData : Supabase :=
  {| select_inventory_series := fun _ _ => {| data := Some [aSeries]; error := None |};
     select_inventory_series_data := fun _ => {| data := Some []; error := None |};
     select_forecast := fun _ _ _ => {| data := None; error := None |} |}.

(** A backend that knows no series. *)
Definition noSeries : Supabase :=
  {| select_inventory_series := fun _ _ => {| data := Some []; error := None |};
     select_inventory_series_data := fun _ => {| data := Some []; error := None |};
     select_forecast := fun _ _ _ => {| data := Some []; error := None |} |}.

Definition mkDay (inventory cumulative : Q) (s : Status) : InventoryProjection :=
  {| date := march15; projected_inventory := inventory; forecast_demand := 50;
     current_stock := 1000; cumulative_demand := cumulative;
     reorder_point := 15; safety_stock := 10; status := s |}.

Definition threeDays : list InventoryProjection :=
  [mkDay 950 50 optimal; mkDay 8 992 warning; mkDay 0 1042 stockout].

(** Observations of 2025-03-15, 2025-04-04 and 2025-03-20. *)
Definition mkRow (day : Z) (v : option Q) : InventoryDataRow :=
  {| row_series_id := 1; row_period_date := day; row_value := v;
     row_product_id := Some "P"%string; row_location_id := None |}.

Definition chartInventory : list InventoryDataRow :=
  [mkRow march15 (Some 100); mkRow (march15 + 20) (Some 30);
   mkRow (march15 + 5) None].

(** A backend for the chart with one series and the rows above. *)
Definition chartBackend : ChartSupabase :=
  {| chart_inventory_series := fun _ _ => {| data := Some [aSeries]; error := None |};
     chart_inventory_series_data := fun _ =>
       {| data := Some chartInventory; error := None |};
     chart_forecast := fun _ _ => {| data := Some variedForecast; error := None |} |}.

Definition noFilters : ChartFilters :=
  {| filter_product_id := None; filter_location_id := None;
     filter_customer_id := None |}.

Definition mkNode (name : string) (kind : option string) : DbNode :=
  {| node_id := name; node_name := None; node_type_id := kind;
     node_status := Some "active"%string; contact_information := None |}.

Definition fiveNodes : list DbNode :=
  [mkNode "a" None; mkNode "b" None; mkNode "c" None; mkNode "d" None;
   mkNode "e" None].

(** ** The day loop *)

Section DayLoop.

Variable sqrt : Q -> Q.
Variable tz : Z.
Variable now : Date.
Variable series : InventorySeries.
Variable inventoryData : list InventoryItem.
Variable forecasts : list ForecastData.

Local Abbreviation baseline := (currentInventoryOf inventoryData).
Local Abbreviation safetyStock := (calculateEnhancedSafetyStock sqrt series forecasts).
Local Abbreviation body := (loopBody tz forecasts now baseline safetyStock).
Local Abbreviation init :=
  {| st_projections := []; runningInventory := baseline; cumulativeDemand := 0 |}.
Local Abbreviation after := (stateAfterDay sqrt tz now series inventoryData forecasts).

Lemma forDays_add (f : Z -> LoopState -> LoopState) (n m : nat) :
  forall day st,
    forDays f (n + m) day st =
    forDays f m (day + Z.of_nat n)%Z (forDays f n day st).
Proof.
  induction n as [|n IH]; intros day st.
  - simpl. now rewrite Z.add_0_r.
  - cbn [Nat.add forDays]. rewrite IH. f_equal. lia.
Qed.

Lemma forDays_last (f : Z -> LoopState -> LoopState) (n : nat) :
  forall day st,
    forDays f (S n) day st = f (day + Z.of_nat n)%Z (forDays f n day st).
Proof.
  intros day st. replace (S n) with (n + 1)%nat by lia.
  now rewrite forDays_add.
Qed.

Lemma after_S (d : nat) : after (S d) = body (Z.of_nat (S d)) (after d).
Proof.
  unfold stateAfterDay. rewrite (forDays_last _ (S d)).
  reflexivity.
Qed.

(** The loop only ever appends to [projections]. *)
Lemma forDays_appends (n : nat) :
  forall day st, exists more,
    st_projections (forDays body n day st) = st_projections st ++ more /\
    List.length more = n.
Proof.
  induction n as [|n IH]; intros day st.
  - exists []. simpl. now rewrite app_nil_r.
  - cbn [forDays]. destruct (IH (day + 1)%Z (body day st)) as (more & E & L).
    rewrite E. unfold loopBody at 1. cbn [st_projections].
    rewrite <- app_assoc. eexists. split; [reflexivity|].
    simpl. now rewrite L.
Qed.

Lemma after_length (d : nat) : List.length (st_projections (after d)) = S d.
Proof.
  unfold stateAfterDay.
  destruct (forDays_appends (S d) 0%Z init) as (more & E & L).
  rewrite E. simpl. exact L.
Qed.

Lemma cumulativeDemand_after (d : nat) :
  cumulativeDemand (after d) = cumulativeThrough tz now forecasts d.
Proof.
  induction d as [|d IH].
  - reflexivity.
  - rewrite after_S. unfold cumulativeThrough in *.
    cbn [cumulativeBefore] in *. rewrite <- IH. reflexivity.
Qed.

(** The entry of day [d] sits at index [d] once day [d] is processed. *)
Lemma after_emitted (d : nat) :
  exists p,
    nth_error (st_projections (after d)) d = Some p /\
    EmittedFor sqrt tz now series inventoryData forecasts d p.
Proof.
  assert (H : exists prev, List.length (st_projections prev) = d /\
                           after d = body (Z.of_nat d) prev).
  { destruct d as [|d].
    - exists init. split; reflexivity.
    - exists (after d). split; [apply after_length | apply after_S]. }
  destruct H as (prev & L & E).
  eexists. split.
  - rewrite E. unfold loopBody. cbn [st_projections].
    rewrite nth_error_app2 by lia. rewrite L, Nat.sub_diag. reflexivity.
  - unfold EmittedFor. rewrite E.
    unfold loopBody. cbn. repeat split; reflexivity.
Qed.

(** The timeline is the loop run for [projectionDays + 1] days, and its
    entry of day [d] is the one emitted for day [d]. *)
Lemma timeline_nth (projectionDays : Z) (d : nat) :
  (Z.of_nat d <= projectionDays)%Z ->
  exists p,
    nth_error
      (calculateInventoryTimeline sqrt tz now series inventoryData forecasts
         projectionDays) d = Some p /\
    EmittedFor sqrt tz now series inventoryData forecasts d p.
Proof.
  intros Hd. destruct (after_emitted d) as (p & Hp & Hem).
  exists p. split; [|exact Hem].
  unfold calculateInventoryTimeline.
  replace (Z.to_nat (projectionDays + 1))
    with (S d + (Z.to_nat (projectionDays + 1) - S d))%nat by lia.
  rewrite forDays_add.
  destruct (forDays_appends (Z.to_nat (projectionDays + 1) - S d)
              (0 + Z.of_nat (S d))%Z (forDays body (S d) 0%Z init))
    as (more & E & _).
  rewrite E. rewrite nth_error_app1.
  - exact Hp.
  - change (forDays body (S d) 0%Z init) with (after d).
    rewrite after_length. lia.
Qed.

Lemma timeline_length (projectionDays : Z) :
  List.length
    (calculateInventoryTimeline sqrt tz now series inventoryData forecasts
       projectionDays) = Z.to_nat (projectionDays + 1).
Proof.
  unfold calculateInventoryTimeline.
  destruct (forDays_appends (Z.to_nat (projectionDays + 1)) 0%Z init)
    as (more & E & L).
  rewrite E. exact L.
Qed.

Lemma timeline_In (projectionDays : Z) (p : InventoryProjection) :
  In p (calculateInventoryTimeline sqrt tz now series inventoryData forecasts
          projectionDays) ->
  exists d, (Z.of_nat d <= projectionDays)%Z /\
    nth_error
      (calculateInventoryTimeline sqrt tz now series inventoryData forecasts
         projectionDays) d = Some p /\
    EmittedFor sqrt tz now series inventoryData forecasts d p.
Proof.
  intros Hin. apply In_nth_error in Hin. destruct Hin as (d & Hd).
  assert (Hlt : (d < Z.to_nat (projectionDays + 1))%nat).
  { rewrite <- timeline_length. apply nth_error_Some. congruence. }
  assert (Hle : (Z.of_nat d <= projectionDays)%Z) by lia.
  destruct (timeline_nth projectionDays d Hle) as (q & Hq & Hem).
  assert (q = p) by congruence. subst q.
  exists d. auto.
Qed.

End DayLoop.

(** ** Arithmetic of the idioms *)

Lemma orElse_zero (x : option Q) : orElse x 0 == nullAsZero x.
Proof.
  destruct x as [v|]; simpl; [|reflexivity].
  destruct (Qeq_bool v 0) eqn:E; [|reflexivity].
  apply Qeq_bool_iff in E. now rewrite E.
Qed.

Lemma Qle_bool_false (x y : Q) : Qle_bool x y = false <-> y < x.
Proof.
  split; intros H.
  - apply Qnot_le_lt. intros L. apply Qle_bool_iff in L. congruence.
  - destruct (Qle_bool x y) eqn:E; [|reflexivity].
    apply Qle_bool_iff in E. apply Qlt_not_le in H. contradiction.
Qed.

Lemma Qmax_0_pos (q : Q) : 0 < q -> Qmax 0 q == q.
Proof. intros H. apply Q.max_r. now apply Qlt_le_weak. Qed.

Lemma Qmax_0_nonpos (q : Q) : q <= 0 -> Qmax 0 q == 0.
Proof. intros H. now apply Q.max_l. Qed.

Lemma currentInventoryOf_from (l : list InventoryItem) :
  forall a,
    fold_left (fun sum item => sum + orElse (value item) 0) l a
    == a + baselineInventory l.
Proof.
  induction l as [|x l IH]; intros a.
  - unfold baselineInventory. simpl. ring.
  - simpl. rewrite IH. unfold baselineInventory. simpl.
    rewrite orElse_zero. ring.
Qed.

Lemma currentInventoryOf_sum (l : list InventoryItem) :
  currentInventoryOf l == baselineInventory l.
Proof. unfold currentInventoryOf. rewrite currentInventoryOf_from. ring. Qed.

(** The replenishment step of the loop body, as arithmetic. *)
Lemma replenishment_arith (b pre : Q) :
  (if Qgt_bool (b * 2 - pre) 0 then pre + (b * 2 - pre) else pre)
  == pre + Qmax 0 (2 * b - pre).
Proof.
  unfold Qgt_bool. destruct (Qle_bool (b * 2 - pre) 0) eqn:E; simpl.
  - apply Qle_bool_iff in E. rewrite Qmax_0_nonpos; [ring|].
    setoid_replace (2 * b - pre) with (b * 2 - pre) by ring. exact E.
  - apply Qle_bool_false in E. rewrite Qmax_0_pos; [ring|].
    setoid_replace (2 * b - pre) with (b * 2 - pre) by ring. exact E.
Qed.

Lemma determineEnhancedInventoryStatus_spec (v ss rp : Q) :
  StatusOf v ss (determineEnhancedInventoryStatus v ss rp).
Proof.
  unfold determineEnhancedInventoryStatus.
  destruct (Qle_bool v 0) eqn:E0.
  { apply is_stockout. now apply Qle_bool_iff. }
  apply Qle_bool_false in E0.
  destruct (Qle_bool v (ss * 0.5)) eqn:E1.
  { apply is_critical; [assumption | now apply Qle_bool_iff]. }
  apply Qle_bool_false in E1.
  destruct (Qle_bool v ss) eqn:E2.
  { apply is_warning; [assumption | assumption | now apply Qle_bool_iff]. }
  apply Qle_bool_false in E2.
  now apply is_optimal.
Qed.

(** The four cases of [StatusOf] exclude one another. *)
Lemma StatusOf_functional (v ss : Q) (s1 s2 : Status) :
  StatusOf v ss s1 -> StatusOf v ss s2 -> s1 = s2.
Proof.
  intros H1 H2; destruct H1; destruct H2; try reflexivity; exfalso; lra.
Qed.

(** ** The value carried by the loop *)

Section Running.

Variable sqrt : Q -> Q.
Variable tz : Z.
Variable now : Date.
Variable series : InventorySeries.
Variable inventoryData : list InventoryItem.
Variable forecasts : list ForecastData.

Local Abbreviation baseline := (currentInventoryOf inventoryData).
Local Abbreviation reorderPoint :=
  (calculateEnhancedSafetyStock sqrt series forecasts * 1.5).
Local Abbreviation after := (stateAfterDay sqrt tz now series inventoryData forecasts).

Lemma runningInventory_day0 :
  runningInventory (after 0%nat) = baseline - cumulativeDemand (after 0%nat).
Proof.
  unfold stateAfterDay, forDays, loopBody. cbn [runningInventory cumulativeDemand].
  rewrite andb_false_r. reflexivity.
Qed.

Lemma runningInventory_later (d : nat) :
  let pre := baseline - cumulativeDemand (after (S d)) in
  runningInventory (after (S d))
  == if Qle_bool pre reorderPoint then pre + Qmax 0 (2 * baseline - pre) else pre.
Proof.
  rewrite after_S. unfold loopBody.
  cbn [runningInventory cumulativeDemand].
  replace (0 <? Z.of_nat (S d))%Z with true by (symmetry; apply Z.ltb_lt; lia).
  rewrite andb_true_r.
  match goal with |- context [Qle_bool ?x ?y] =>
    destruct (Qle_bool x y) end.
  - apply replenishment_arith.
  - reflexivity.
Qed.

Lemma runningInventory_after (d : nat) :
  let pre := baseline - cumulativeDemand (after d) in
  runningInventory (after d)
  == if (0 <? d)%nat && Qle_bool pre reorderPoint
     then pre + Qmax 0 (2 * baseline - pre) else pre.
Proof.
  destruct d as [|d].
  - cbn zeta. rewrite runningInventory_day0. reflexivity.
  - apply runningInventory_later.
Qed.

End Running.

(** ** The daily demand *)

Section DailyDemand.

Variable date : Date.

Lemma FirstClosest_single (f : ForecastData) : FirstClosest date [f] f.
Proof.
  exists [], []. split; [reflexivity|]. split; intros g [].
Qed.

Lemma FirstClosest_step (seen : list ForecastData) (acc x : ForecastData) :
  FirstClosest date seen acc ->
  FirstClosest date (seen ++ [x]) (closer date acc x).
Proof.
  intros (before & rest & E & Hb & Ha). unfold closer.
  destruct (timeDiff date x <? timeDiff date acc)%Z eqn:C.
  - apply Z.ltb_lt in C. exists seen, []. split; [reflexivity|].
    split; [|intros g []].
    intros g Hg. rewrite E in Hg. apply in_app_or in Hg.
    destruct Hg as [Hg|[Hg|Hg]].
    + specialize (Hb g Hg). lia.
    + subst g. exact C.
    + specialize (Ha g Hg). lia.
  - apply Z.ltb_ge in C. exists before, (rest ++ [x]). split.
    + rewrite E, <- app_assoc. reflexivity.
    + split; [exact Hb|].
      intros g Hg. apply in_app_or in Hg. destruct Hg as [Hg|[Hg|[]]].
      * now apply Ha.
      * now subst g.
Qed.

Lemma FirstClosest_fold (rest : list ForecastData) :
  forall seen acc,
    FirstClosest date seen acc ->
    FirstClosest date (seen ++ rest) (fold_left (closer date) rest acc).
Proof.
  induction rest as [|x rest IH]; intros seen acc H.
  - simpl. now rewrite app_nil_r.
  - simpl. replace (seen ++ x :: rest) with ((seen ++ [x]) ++ rest)
      by (rewrite <- app_assoc; reflexivity).
    apply IH. now apply FirstClosest_step.
Qed.

Lemma reduce1_closest (first : ForecastData) (rest : list ForecastData) :
  FirstClosest date (first :: rest) (reduce1 (closer date) first rest).
Proof.
  unfold reduce1. apply (FirstClosest_fold rest [first] first).
  apply FirstClosest_single.
Qed.

Lemma FirstClosest_In (l : list ForecastData) (c : ForecastData) :
  FirstClosest date l c -> In c l.
Proof.
  intros (before & rest & E & _). rewrite E. apply in_or_app. right. now left.
Qed.

Lemma FirstClosest_least (l : list ForecastData) (c f : ForecastData) :
  FirstClosest date l c -> In f l -> (timeDiff date c <= timeDiff date f)%Z.
Proof.
  intros (before & rest & E & Hb & Ha) Hf. rewrite E in Hf.
  apply in_app_or in Hf. destruct Hf as [Hf|[Hf|Hf]].
  - specialize (Hb f Hf). lia.
  - subst f. lia.
  - now apply Ha.
Qed.

End DailyDemand.

(** *** The sort *)

Lemma insertByDate_perm (x : ForecastData) (l : list ForecastData) :
  Permutation (insertByDate x l) (x :: l).
Proof.
  induction l as [|y l IH]; simpl.
  - apply Permutation_refl.
  - destruct (getTime (parse (postdate x)) <=? getTime (parse (postdate y)))%Z.
    + apply Permutation_refl.
    + eapply Permutation_trans; [apply perm_skip, IH | apply perm_swap].
Qed.

Lemma sortByDate_perm (l : list ForecastData) : Permutation (sortByDate l) l.
Proof.
  induction l as [|x l IH]; simpl.
  - apply Permutation_refl.
  - eapply Permutation_trans; [apply insertByDate_perm | now apply perm_skip].
Qed.

Lemma parse_le (a b : Z) :
  (getTime (parse a) <=? getTime (parse b))%Z = (a <=? b)%Z.
Proof.
  unfold getTime, parse, msPerDay.
  destruct (a <=? b)%Z eqn:E.
  - apply Z.leb_le in E. apply Z.leb_le. lia.
  - apply Z.leb_gt in E. apply Z.leb_gt. lia.
Qed.

Lemma insertByDate_sorted (x : ForecastData) (l : list ForecastData) :
  AscendingDates l -> AscendingDates (insertByDate x l).
Proof.
  unfold AscendingDates. induction l as [|y l IH]; intros H; simpl.
  - constructor; [constructor | constructor].
  - rewrite parse_le. destruct (postdate x <=? postdate y)%Z eqn:E.
    + apply Z.leb_le in E. constructor; [exact H|].
      constructor; [exact E|].
      apply StronglySorted_inv in H. destruct H as [_ H].
      eapply Forall_impl; [|exact H]. simpl. intros; lia.
    + apply Z.leb_gt in E. apply StronglySorted_inv in H. destruct H as [Hs Hf].
      constructor; [now apply IH|].
      apply Forall_forall. intros g Hg.
      apply (Permutation_in _ (insertByDate_perm x l)) in Hg.
      destruct Hg as [Hg|Hg].
      * subst g. lia.
      * rewrite Forall_forall in Hf. now apply Hf.
Qed.

Lemma sortByDate_sorted (l : list ForecastData) : AscendingDates (sortByDate l).
Proof.
  induction l as [|x l IH]; simpl.
  - constructor.
  - now apply insertByDate_sorted.
Qed.

(** Sorting leaves a sequence that is already in date order as it is. *)
Lemma sortByDate_ascending (l : list ForecastData) :
  AscendingDates l -> sortByDate l = l.
Proof.
  unfold AscendingDates. induction l as [|x l IH]; intros H; [reflexivity|].
  apply StronglySorted_inv in H. destruct H as [Hs Hf].
  simpl. rewrite (IH Hs). destruct l as [|y l]; [reflexivity|].
  simpl. rewrite parse_le. apply Forall_inv in Hf.
  apply Z.leb_le in Hf. now rewrite Hf.
Qed.

Lemma filter_ascending (keep : ForecastData -> bool) (l : list ForecastData) :
  AscendingDates l -> AscendingDates (filter keep l).
Proof.
  unfold AscendingDates. induction l as [|x l IH]; intros H; simpl; [constructor|].
  apply StronglySorted_inv in H. destruct H as [Hs Hf].
  destruct (keep x); [|now apply IH].
  constructor; [now apply IH|].
  apply Forall_forall. intros g Hg. apply filter_In in Hg.
  rewrite Forall_forall in Hf. now apply Hf.
Qed.

Lemma insertByDate_stable (day : Z) (x : ForecastData) (l : list ForecastData) :
  filter (fun f => (postdate f =? day)%Z) (insertByDate x l)
  = filter (fun f => (postdate f =? day)%Z) (x :: l).
Proof.
  induction l as [|y l IH]; [reflexivity|].
  cbn [insertByDate]. rewrite parse_le.
  destruct (postdate x <=? postdate y)%Z eqn:E; [reflexivity|].
  apply Z.leb_gt in E. cbn [filter] in *. rewrite IH.
  destruct (postdate x =? day)%Z eqn:Ex; [|reflexivity].
  apply Z.eqb_eq in Ex.
  replace (postdate y =? day)%Z with false; [reflexivity|].
  symmetry. apply Z.eqb_neq. lia.
Qed.

Lemma sortByDate_stable (day : Z) (l : list ForecastData) :
  filter (fun f => (postdate f =? day)%Z) (sortByDate l)
  = filter (fun f => (postdate f =? day)%Z) l.
Proof.
  induction l as [|x l IH]; [reflexivity|].
  cbn [sortByDate fold_right]. rewrite insertByDate_stable.
  cbn [filter]. fold (sortByDate l). now rewrite IH.
Qed.

Lemma sortByDate_InDateOrder (l : list ForecastData) :
  InDateOrder l (sortByDate l).
Proof.
  split; [apply sortByDate_perm|].
  split; [apply sortByDate_sorted|].
  intros day. apply sortByDate_stable.
Qed.

Lemma sortByDate_nil (l : list ForecastData) : sortByDate l = [] -> l = [].
Proof.
  intros H. pose proof (sortByDate_perm l) as P. rewrite H in P.
  now apply Permutation_nil in P.
Qed.

(** *** getDailyDemand, case by case *)

Lemma closestDemand_cases (forecasts : list ForecastData) (date : Date) :
  (filter hasForecast forecasts = [] /\ closestDemand forecasts date = 0) \/
  (exists c,
     FirstClosest date (sortByDate (filter hasForecast forecasts)) c /\
     closestDemand forecasts date = orElse (forecast c) 0).
Proof.
  unfold closestDemand.
  destruct (sortByDate (filter hasForecast forecasts)) as [|first rest] eqn:E.
  - left. split; [now apply sortByDate_nil | reflexivity].
  - right. eexists. split; [apply reduce1_closest | reflexivity].
Qed.

Lemma closestDemand_spec (forecasts : list ForecastData) (date : Date) :
  forecasts <> [] -> NoExactForecast forecasts date ->
  BaseDemand forecasts date (closestDemand forecasts date).
Proof.
  intros Hne Hno.
  destruct (closestDemand_cases forecasts date) as [[Hnil E]|(c & Hc & E)];
    rewrite E.
  - now apply base_of_no_value.
  - now apply base_of_closest.
Qed.

Lemma getDailyDemand_spec (forecasts : list ForecastData) (date : Date) :
  ExactForecastNotZero forecasts date ->
  BaseDemand forecasts date (getDailyDemand forecasts date).
Proof.
  intros Hnz. unfold getDailyDemand. destruct forecasts as [|f0 fs] eqn:Ef.
  - now apply base_of_no_forecast.
  - rewrite <- Ef in *.
    assert (Hne : forecasts <> []) by (rewrite Ef; discriminate).
    destruct (find (fun f => (postdate f =? toISODate date)%Z) forecasts)
      as [exactMatch|] eqn:Efind.
    + destruct (forecast exactMatch) as [v|] eqn:Ev.
      * destruct (Qeq_bool v 0) eqn:Ez.
        -- apply Qeq_bool_iff in Ez. now destruct (Hnz exactMatch v Efind Ev).
        -- eapply base_of_exact_match; eauto.
      * apply closestDemand_spec; [assumption|].
        unfold NoExactForecast. now rewrite Efind.
    + apply closestDemand_spec; [assumption|].
      unfold NoExactForecast. now rewrite Efind.
Qed.

Lemma orElse_nonneg (x : option Q) :
  (forall v, x = Some v -> 0 <= v) -> 0 <= orElse x 0.
Proof.
  intros H. destruct x as [v|]; simpl; [|apply Qle_refl].
  destruct (Qeq_bool v 0); [apply Qle_refl | now apply H].
Qed.

Lemma closestDemand_nonneg (forecasts : list ForecastData) (date : Date) :
  NonNegativeForecasts forecasts -> 0 <= closestDemand forecasts date.
Proof.
  intros Hnn.
  destruct (closestDemand_cases forecasts date) as [[_ E]|(c & Hc & E)];
    rewrite E.
  - apply Qle_refl.
  - apply orElse_nonneg. intros v Hv. apply FirstClosest_In in Hc.
    apply (Permutation_in _ (sortByDate_perm _)) in Hc.
    apply filter_In in Hc. eapply Hnn; [apply Hc | exact Hv].
Qed.

Lemma getDailyDemand_nonneg (forecasts : list ForecastData) (date : Date) :
  NonNegativeForecasts forecasts -> 0 <= getDailyDemand forecasts date.
Proof.
  intros Hnn. unfold getDailyDemand. destruct forecasts as [|f0 fs] eqn:Ef.
  - apply Qle_refl.
  - rewrite <- Ef in *.
    destruct (find (fun f => (postdate f =? toISODate date)%Z) forecasts)
      as [exactMatch|] eqn:Efind; [|now apply closestDemand_nonneg].
    destruct (forecast exactMatch) as [v|] eqn:Ev;
      [|now apply closestDemand_nonneg].
    destruct (Qeq_bool v 0); [now apply closestDemand_nonneg|].
    apply find_some in Efind. eapply Hnn; [apply Efind | exact Ev].
Qed.

(** A forecast of zero on the exact date is passed over like a null one:
    at 18:00 the point of tomorrow is the closer one and gives the
    demand of today. *)
Example getDailyDemand_zero_forecast_passed_over :
  find (fun f => (postdate f =? toISODate evening)%Z) zeroThenFifty
    = Some (mkForecast march15 (Some 0)) /\
  getDailyDemand zeroThenFifty evening = 50 /\
  getDailyDemand zeroThenFifty midnight = 0.
Proof. repeat split. Qed.

(** *** The seasonal factor *)

Lemma seasonal_range (m : Z) :
  0.9 <= orElse (seasonalFactors m) 1.0 /\ orElse (seasonalFactors m) 1.0 <= 1.3.
Proof.
  destruct m as [|p|p]; try (vm_compute; split; discriminate).
  do 4 (try destruct p as [p|p|]); vm_compute; split; discriminate.
Qed.

Lemma seasonal_peak (m : Z) :
  orElse (seasonalFactors m) 1.0 == 1.3 -> m = 12%Z.
Proof.
  destruct m as [|p|p]; try (vm_compute; discriminate).
  do 4 (try destruct p as [p|p|]); try reflexivity; vm_compute; discriminate.
Qed.

(** ** The safety stock *)

Lemma fold_left_Qsum {A : Type} (g : A -> Q) (l : list A) :
  forall a, fold_left (fun sum x => sum + g x) l a == a + Qsum (map g l).
Proof.
  induction l as [|x l IH]; intros a; simpl.
  - ring.
  - rewrite IH. ring.
Qed.

Lemma Qsum_map_ext {A : Type} (g h : A -> Q) (l : list A) :
  (forall x, In x l -> g x == h x) -> Qsum (map g l) == Qsum (map h l).
Proof.
  induction l as [|x l IH]; intros H; simpl.
  - reflexivity.
  - rewrite (H x) by now left. rewrite IH; [reflexivity|].
    intros y Hy. apply H. now right.
Qed.

Section SafetyStock.

Variable sqrt : Q -> Q.
Hypothesis sqrt_compat : Proper (Qeq ==> Qeq) sqrt.

Local Abbreviation demandOf := (fun f : ForecastData => nullAsZero (forecast f)).

Lemma avgDemand_mean (forecasts : list ForecastData) :
  fold_left (fun sum d => sum + d)
    (map (fun f => orElse (forecast f) 0) forecasts) 0
  / inject_Z (Z.of_nat (List.length (map (fun f => orElse (forecast f) 0) forecasts)))
  == mean (map demandOf forecasts).
Proof.
  unfold mean. rewrite !length_map.
  rewrite (fold_left_Qsum (fun d => d)). rewrite map_id.
  rewrite (Qsum_map_ext (fun f => orElse (forecast f) 0) demandOf).
  - apply Qdiv_comp; [ring | reflexivity].
  - intros f _. apply orElse_zero.
Qed.

Lemma variance_population (forecasts : list ForecastData) (avgDemand : Q) :
  avgDemand == mean (map demandOf forecasts) ->
  fold_left (fun sum d => sum + (d - avgDemand) ^ 2)
    (map (fun f => orElse (forecast f) 0) forecasts) 0
  / inject_Z (Z.of_nat (List.length (map (fun f => orElse (forecast f) 0) forecasts)))
  == populationVariance (map demandOf forecasts).
Proof.
  intros Havg. unfold populationVariance. rewrite !length_map.
  rewrite (fold_left_Qsum (fun d => (d - avgDemand) ^ 2)). rewrite !map_map.
  apply Qdiv_comp; [|reflexivity].
  rewrite Qplus_0_l. apply Qsum_map_ext. intros f _.
  rewrite orElse_zero, Havg. simpl. ring.
Qed.

Lemma calculateEnhancedSafetyStock_variance (series : InventorySeries)
    (forecasts : list ForecastData) :
  forecasts <> [] ->
  calculateEnhancedSafetyStock sqrt series forecasts
  == Qmax 10 (1.65 * sqrt (populationVariance (map demandOf forecasts))
              * sqrt (14 / 7)).
Proof.
  intros Hne. destruct forecasts as [|f0 fs]; [congruence|].
  unfold calculateEnhancedSafetyStock. cbv beta match zeta.
  rewrite Q.max_comm.
  rewrite (variance_population (f0 :: fs) _ (avgDemand_mean (f0 :: fs))).
  reflexivity.
Qed.

End SafetyStock.

Lemma safetyStock_floor (sqrt : Q -> Q) (series : InventorySeries)
    (forecasts : list ForecastData) :
  10 <= calculateEnhancedSafetyStock sqrt series forecasts.
Proof.
  unfold calculateEnhancedSafetyStock. destruct forecasts.
  - apply Qle_refl.
  - apply Q.le_max_r.
Qed.

(** [sqrt6] respects equality of rationals. *)
Lemma sqrt6_compat : Proper (Qeq ==> Qeq) sqrt6.
Proof.
  intros x y H. unfold sqrt6.
  assert (E : Qfloor (x * 1000000000000) = Qfloor (y * 1000000000000)).
  { apply Qfloor_comp. now rewrite H. }
  now rewrite E.
Qed.

(** ** The summary *)

Lemma countStatus_count_occ (s : Status) (ps : list InventoryProjection) :
  countStatus s ps = count_occ Status_eq_dec (map status ps) s.
Proof.
  unfold countStatus. induction ps as [|p ps IH]; [reflexivity|].
  simpl. destruct (Status_eq_dec (status p) s) as [E|N].
  - rewrite E. replace (Status_eqb s s) with true by (now destruct s).
    simpl. now rewrite IH.
  - replace (Status_eqb (status p) s) with false; [exact IH|].
    destruct (status p), s; try reflexivity; congruence.
Qed.

Lemma Qmin_cases (x y : Q) : Qmin x y = x \/ Qmin x y = y.
Proof.
  unfold Qmin, GenericMinMax.gmin. destruct (x ?= y); auto.
Qed.

Lemma Math_min_le (rest : list Q) :
  forall first,
    Math_min first rest <= first /\
    (forall x, In x rest -> Math_min first rest <= x).
Proof.
  unfold Math_min. induction rest as [|y rest IH]; intros first; simpl.
  - split; [apply Qle_refl | intros x []].
  - destruct (IH (Qmin first y)) as [H1 H2]. split.
    + eapply Qle_trans; [exact H1 | apply Q.le_min_l].
    + intros x [Hx|Hx].
      * subst x. eapply Qle_trans; [exact H1 | apply Q.le_min_r].
      * now apply H2.
Qed.

Lemma Math_min_attained (rest : list Q) :
  forall first, In (Math_min first rest) (first :: rest).
Proof.
  unfold Math_min. induction rest as [|y rest IH]; intros first; simpl.
  - now left.
  - specialize (IH (Qmin first y)).
    set (least := fold_left Qmin rest (Qmin first y)) in *.
    destruct IH as [H|H]; [|auto].
    destruct (Qmin_cases first y) as [E|E]; rewrite E in H; auto.
Qed.

Lemma nth_error_last {A : Type} (l : list A) (d : A) :
  l <> [] -> nth_error l (List.length l - 1) = Some (last l d).
Proof.
  induction l as [|x l IH]; intros H; [congruence|].
  destruct l as [|y l]; [reflexivity|].
  replace (List.length (x :: y :: l) - 1)%nat with (S (List.length (y :: l) - 1))
    by (simpl; lia).
  cbn [nth_error]. rewrite IH by discriminate. reflexivity.
Qed.

Lemma riskLevel_cases (ps : list InventoryProjection) (s : Summary) :
  getProjectionSummary ps = Some s ->
  ((0 < stockoutDays s)%nat -> riskLevel s = high) /\
  (stockoutDays s = 0%nat -> (7 < criticalDays s)%nat -> riskLevel s = medium) /\
  (stockoutDays s = 0%nat -> (criticalDays s <= 7)%nat -> riskLevel s = low).
Proof.
  destruct ps as [|p0 ps]; [discriminate|].
  unfold getProjectionSummary. intros H. inversion H; subst s; clear H.
  cbn [stockoutDays criticalDays riskLevel].
  destruct (0 <? countStatus stockout (p0 :: ps))%nat eqn:E0;
    [apply Nat.ltb_lt in E0 | apply Nat.ltb_ge in E0];
    (destruct (7 <? countStatus critical (p0 :: ps))%nat eqn:E1;
     [apply Nat.ltb_lt in E1 | apply Nat.ltb_ge in E1]);
    repeat split; intros; try reflexivity; lia.
Qed.

(** * The properties of the specification *)

(** C1: on every day [d] of [0..projectionDays], the projected inventory
    before replenishment is the baseline (the sum of the observation
    values, null as 0) minus the adjusted demand accumulated through day
    [d]; the value the loop carries on is that value plus
    [max(0, 2 * baseline - value)] exactly when [d > 0] and the value is
    at most the reorder point, and that value itself on day 0; the entry
    of the day shows it floored at 0. *)
Theorem projected_inventory_running_total
    (sqrt : Q -> Q) (tz : Z) (now : Date) (series : InventorySeries)
    (inventoryData : list InventoryItem) (forecasts : list ForecastData)
    (projectionDays : Z) (d : nat) :
  (Z.of_nat d <= projectionDays)%Z ->
  let baseline := currentInventoryOf inventoryData in
  let reorderPoint := calculateEnhancedSafetyStock sqrt series forecasts * 1.5 in
  let st := stateAfterDay sqrt tz now series inventoryData forecasts d in
  let value := baseline - cumulativeThrough tz now forecasts d in
  baseline == baselineInventory inventoryData /\
  cumulativeDemand st = cumulativeThrough tz now forecasts d /\
  runningInventory st
    == (if (0 <? d)%nat && Qle_bool value reorderPoint
        then value + Qmax 0 (2 * baseline - value) else value) /\
  (d = 0%nat -> runningInventory st = value) /\
  exists p,
    nth_error
      (calculateInventoryTimeline sqrt tz now series inventoryData forecasts
         projectionDays) d = Some p /\
    current_stock p = baseline /\
    cumulative_demand p = cumulativeThrough tz now forecasts d /\
    projected_inventory p = Qmax 0 (runningInventory st).
Proof.
  intros Hd baseline reorderPoint st value.
  assert (Hcum : cumulativeDemand st = cumulativeThrough tz now forecasts d)
    by apply cumulativeDemand_after.
  split; [apply currentInventoryOf_sum|].
  split; [exact Hcum|].
  split.
  { subst value. rewrite <- Hcum. apply runningInventory_after. }
  split.
  { intros ->. subst value. rewrite <- Hcum. apply runningInventory_day0. }
  destruct (timeline_nth sqrt tz now series inventoryData forecasts
              projectionDays d Hd) as (p & Hp & Hem).
  destruct Hem as (_ & Hinv & _ & Hcur & Hc & _).
  exists p. repeat split; try assumption.
  rewrite Hc. exact Hcum.
Qed.

Lemma projected_inventory_running_total_witness :
  (Z.of_nat 2 <= 3)%Z /\
  runningInventory
    (stateAfterDay sqrt6 0%Z midnight aSeries [mkItem (Some 100)] fiftyADay 2)
  == 200.
Proof.
  assert (H : (Z.of_nat 2 <= 3)%Z) by (vm_compute; discriminate).
  split; [exact H|].
  destruct (projected_inventory_running_total sqrt6 0%Z midnight aSeries
              [mkItem (Some 100)] fiftyADay 3 2 H) as (_ & _ & Hrun & _).
  rewrite Hrun. vm_compute. reflexivity.
Defined.

(** C2 (as amended): the forecast demand of every day is the base daily
    demand of its date times the seasonal factor of its month (between
    0.9 and 1.3; 1.0 in March, 1.2 in July, 1.3 in December and only
    then).  Provided the first point of exactly that date does not
    forecast zero, the base demand is: 0 without forecast points; the
    forecast of the first point of exactly that date when it is not null;
    otherwise the forecast of the point closest in time among those whose
    forecast is not null, taken in date order (points of one date in the
    order of the sequence), the first of the closest winning, and 0 when
    every forecast is null.  Date order is the order of the sequence when
    it is supplied in ascending order. *)
Theorem forecast_demand_of_day
    (sqrt : Q -> Q) (tz : Z) (now : Date) (series : InventorySeries)
    (inventoryData : list InventoryItem) (forecasts : list ForecastData)
    (projectionDays : Z) (d : nat) :
  (Z.of_nat d <= projectionDays)%Z ->
  let day := dateOfDay now d in
  let month := (getMonth tz day + 1)%Z in
  let factor := getSeasonalAdjustment tz day in
  (exists p,
     nth_error
       (calculateInventoryTimeline sqrt tz now series inventoryData forecasts
          projectionDays) d = Some p /\
     forecast_demand p = getDailyDemand forecasts day * factor) /\
  (ExactForecastNotZero forecasts day ->
   BaseDemand forecasts day (getDailyDemand forecasts day)) /\
  InDateOrder (filter hasForecast forecasts)
    (sortByDate (filter hasForecast forecasts)) /\
  (AscendingDates forecasts ->
   sortByDate (filter hasForecast forecasts) = filter hasForecast forecasts) /\
  0.9 <= factor /\ factor <= 1.3 /\
  (month = 3%Z -> factor == 1.0) /\
  (month = 7%Z -> factor == 1.2) /\
  (month = 12%Z <-> factor == 1.3).
Proof.
  intros Hd day month factor.
  split.
  { destruct (timeline_nth sqrt tz now series inventoryData forecasts
                projectionDays d Hd) as (p & Hp & Hem).
    destruct Hem as (_ & _ & Hf & _).
    exists p. split; [exact Hp | exact Hf]. }
  split; [apply getDailyDemand_spec|].
  split; [apply sortByDate_InDateOrder|].
  split.
  { intros Hasc. apply sortByDate_ascending. now apply filter_ascending. }
  subst factor. unfold getSeasonalAdjustment. cbv zeta. fold month.
  split; [apply seasonal_range|].
  split; [apply seasonal_range|].
  split; [intros ->; vm_compute; reflexivity|].
  split; [intros ->; vm_compute; reflexivity|].
  split; [intros ->; vm_compute; reflexivity | apply seasonal_peak].
Qed.

Lemma forecast_demand_of_day_witness :
  (Z.of_nat 1 <= 1)%Z /\
  (exists p,
     nth_error
       (calculateInventoryTimeline sqrt6 0%Z midnight aSeries
          [mkItem (Some 100)] variedForecast 1) 1 = Some p /\
     forecast_demand p == 60) /\
  BaseDemand variedForecast (dateOfDay midnight 1)
    (getDailyDemand variedForecast (dateOfDay midnight 1)).
Proof.
  assert (H : (Z.of_nat 1 <= 1)%Z) by (vm_compute; discriminate).
  split; [exact H|].
  destruct (forecast_demand_of_day sqrt6 0%Z midnight aSeries
              [mkItem (Some 100)] variedForecast 1 1 H)
    as ((p & Hp & Hf) & Hbase & _).
  split.
  - exists p. split; [exact Hp|].
    rewrite Hf. vm_compute. reflexivity.
  - apply Hbase. intros f v Hfind Hv.
    vm_compute in Hfind. inversion Hfind; subst f.
    inversion Hv; subst v. discriminate.
Defined.

(** C2, as the specification states it, fails: with a point of today's
    date whose forecast is null and a point of tomorrow whose forecast is
    50, the demand of day 0 is 50, taken from tomorrow's point, and not
    the (null, hence 0) forecast of the point of that date. *)
Lemma forecast_demand_exact_match_counterexample :
  find (fun f => (postdate f =? toISODate midnight)%Z) nullThenFifty
    = Some (mkForecast march15 None) /\
  specBaseDemand nullThenFifty midnight == 0 /\
  getSeasonalAdjustment 0%Z midnight == 1 /\
  exists p,
    nth_error
      (calculateInventoryTimeline sqrt6 0%Z midnight aSeries [] nullThenFifty 0)
      0 = Some p /\
    forecast_demand p == 50 /\
    ~ forecast_demand p
      == specBaseDemand nullThenFifty midnight * getSeasonalAdjustment 0%Z midnight.
Proof.
  split; [reflexivity|].
  split; [vm_compute; reflexivity|].
  split; [vm_compute; reflexivity|].
  eexists. split; [vm_compute; reflexivity|].
  split; [vm_compute; reflexivity|].
  vm_compute. discriminate.
Qed.

(** C3: the safety stock of the projection is
    [max(10, 1.65 * stdDev * sqrt(14 / 7))], [stdDev] being the square
    root of the population variance of the forecast values with null read
    as 0; without forecast points it is exactly 10, and then the forecast
    demand of every day is 0. *)
Theorem safety_stock_formula
    (sqrt : Q -> Q) (series : InventorySeries) (forecasts : list ForecastData) :
  Proper (Qeq ==> Qeq) sqrt ->
  (forecasts <> [] ->
   calculateEnhancedSafetyStock sqrt series forecasts
   == Qmax 10
        (1.65
         * sqrt (populationVariance
                   (map (fun f => nullAsZero (forecast f)) forecasts))
         * sqrt (14 / 7))) /\
  calculateEnhancedSafetyStock sqrt series [] = 10 /\
  (forall tz now inventoryData projectionDays p,
     In p (calculateInventoryTimeline sqrt tz now series inventoryData forecasts
             projectionDays) ->
     safety_stock p = calculateEnhancedSafetyStock sqrt series forecasts) /\
  (forall tz now inventoryData projectionDays p,
     In p (calculateInventoryTimeline sqrt tz now series inventoryData []
             projectionDays) ->
     safety_stock p = 10 /\ forecast_demand p == 0).
Proof.
  intros Hsqrt.
  split; [now apply calculateEnhancedSafetyStock_variance|].
  split; [reflexivity|].
  split.
  - intros tz now inventoryData projectionDays p Hin.
    apply timeline_In in Hin. destruct Hin as (d & _ & _ & Hem).
    apply Hem.
  - intros tz now inventoryData projectionDays p Hin.
    apply timeline_In in Hin. destruct Hin as (d & _ & _ & Hem).
    destruct Hem as (_ & _ & Hf & _ & _ & _ & Hs & _).
    split; [exact Hs|].
    rewrite Hf. unfold adjustedDemandOn. simpl. ring.
Qed.

Lemma safety_stock_formula_witness :
  calculateEnhancedSafetyStock sqrt6 aSeries variedForecast
  == Qmax 10
       (1.65
        * sqrt6 (populationVariance
                   (map (fun f => nullAsZero (forecast f)) variedForecast))
        * sqrt6 (14 / 7)).
Proof.
  destruct (safety_stock_formula sqrt6 aSeries variedForecast sqrt6_compat)
    as (H & _).
  apply H. discriminate.
Defined.

Lemma StatusOf_compat (x y ss : Q) (st : Status) :
  x == y -> StatusOf x ss st -> StatusOf y ss st.
Proof.
  intros E H. destruct H; [apply is_stockout | apply is_critical
                          | apply is_warning | apply is_optimal]; lra.
Qed.

(** C4: the status of every day is decided on the projected inventory
    after the replenishment step and before it is floored, that is on the
    baseline minus the demand accumulated through the day, refilled by
    [max(0, 2 * baseline - value)] when the day is not day 0 and the
    value is at most the reorder point: stockout when it is at most 0,
    else critical when at most half the safety stock, else warning when
    at most the safety stock, else optimal; the entry shows that same
    value floored at 0.  With a safety stock of 100 the values 0, 50, 100
    and 101 are stockout, critical, warning and optimal. *)
Theorem status_of_day
    (sqrt : Q -> Q) (tz : Z) (now : Date) (series : InventorySeries)
    (inventoryData : list InventoryItem) (forecasts : list ForecastData)
    (projectionDays : Z) (d : nat) :
  (Z.of_nat d <= projectionDays)%Z ->
  let baseline := currentInventoryOf inventoryData in
  let safetyStock := calculateEnhancedSafetyStock sqrt series forecasts in
  let reorderPoint := safetyStock * 1.5 in
  let value := baseline - cumulativeThrough tz now forecasts d in
  let replenished :=
    if (0 <? d)%nat && Qle_bool value reorderPoint
    then value + Qmax 0 (2 * baseline - value) else value in
  (exists p,
     nth_error
       (calculateInventoryTimeline sqrt tz now series inventoryData forecasts
          projectionDays) d = Some p /\
     safety_stock p = safetyStock /\
     runningInventory
       (stateAfterDay sqrt tz now series inventoryData forecasts d)
     == replenished /\
     projected_inventory p == Qmax 0 replenished /\
     StatusOf replenished safetyStock (status p)) /\
  (forall reorderPoint,
     determineEnhancedInventoryStatus 0 100 reorderPoint = stockout /\
     determineEnhancedInventoryStatus 50 100 reorderPoint = critical /\
     determineEnhancedInventoryStatus 100 100 reorderPoint = warning /\
     determineEnhancedInventoryStatus 101 100 reorderPoint = optimal).
Proof.
  intros Hd baseline safetyStock reorderPoint value replenished. split.
  - destruct (timeline_nth sqrt tz now series inventoryData forecasts
                projectionDays d Hd) as (p & Hp & Hem).
    destruct Hem as (_ & Hinv & _ & _ & _ & _ & Hs & Hst).
    assert (Hrun : runningInventory
                     (stateAfterDay sqrt tz now series inventoryData forecasts d)
                   == replenished).
    { pose proof (runningInventory_after sqrt tz now series inventoryData
                    forecasts d) as H. cbv zeta in H.
      rewrite cumulativeDemand_after in H. exact H. }
    exists p. split; [exact Hp|]. split; [exact Hs|]. split; [exact Hrun|].
    split.
    + rewrite Hinv. now rewrite Hrun.
    + apply (StatusOf_compat _ _ _ _ Hrun). rewrite Hst.
      apply determineEnhancedInventoryStatus_spec.
  - intros rp. repeat split.
Qed.

Lemma status_of_day_witness :
  (Z.of_nat 2 <= 3)%Z /\
  exists p,
    nth_error
      (calculateInventoryTimeline sqrt6 0%Z midnight aSeries
         [mkItem (Some 100)] fiftyADay 3) 2 = Some p /\
    projected_inventory p == 200 /\
    status p = optimal.
Proof.
  assert (H : (Z.of_nat 2 <= 3)%Z) by (vm_compute; discriminate).
  split; [exact H|].
  destruct (status_of_day sqrt6 0%Z midnight aSeries [mkItem (Some 100)]
              fiftyADay 3 2 H) as ((p & Hp & _ & _ & Hinv & Hs) & _).
  exists p. split; [exact Hp|]. split.
  - rewrite Hinv. vm_compute. reflexivity.
  - eapply StatusOf_functional; [exact Hs|].
    apply is_optimal; vm_compute; reflexivity.
Defined.

Lemma projectSeries_projections
    (sqrt : Q -> Q) (tz : Z) (now : Date)
    (inventoryData : option (list InventoryItem))
    (forecastData : option (list ForecastData)) (params : ProjectionParams)
    (series : InventorySeries) :
  projections (projectSeries sqrt tz now inventoryData forecastData params series)
  = calculateInventoryTimeline sqrt tz now series
      match inventoryData with
      | Some rows => filter (fun inv => (series_id inv =? id series)%Z) rows
      | None => []
      end
      match forecastData with
      | Some rows =>
          filter (fun f => String.eqb (product_id f) (series_product_id series) &&
                           String.eqb (location_id f) (series_location_id series)) rows
      | None => []
      end
      (projectionDaysOf params).
Proof. reflexivity. Qed.

(** C5 (as amended): the output is empty when the request matches no
    inventory series.  A series that exists is projected whatever data
    there is for it: without observations its baseline is 0 and the
    projection has its [projectionDays + 1] days, and missing forecast
    data alone triggers neither an empty output nor an error. *)
Theorem empty_output_only_without_series
    (sqrt : Q -> Q) (tz : Z) (now : Date) (supabase : Supabase)
    (params : ProjectionParams) :
  let product := eqFilter (param_product_id params) in
  let location := eqFilter (param_location_id params) in
  let seriesQuery := select_inventory_series supabase product location in
  error seriesQuery = None ->
  (data seriesQuery = None \/ data seriesQuery = Some [] ->
   calculateProjections sqrt tz now supabase params = inr []) /\
  (forall inventorySeries,
     data seriesQuery = Some inventorySeries -> inventorySeries <> [] ->
     error (select_inventory_series_data supabase (map id inventorySeries)) = None ->
     error (select_forecast supabase (toISODate now) product location) = None ->
     exists results,
       calculateProjections sqrt tz now supabase params = inr results /\
       results <> [] /\
       List.length results = List.length inventorySeries /\
       forall r, In r results ->
         List.length (projections r) = Z.to_nat (projectionDaysOf params + 1)) /\
  (forall series forecasts projectionDays,
     (0 <= projectionDays)%Z ->
     List.length
       (calculateInventoryTimeline sqrt tz now series [] forecasts projectionDays)
     = S (Z.to_nat projectionDays) /\
     forall p,
       In p (calculateInventoryTimeline sqrt tz now series [] forecasts
               projectionDays) ->
       current_stock p = 0).
Proof.
  intros product location seriesQuery Herr.
  split; [|split].
  - intros Hdata. unfold calculateProjections.
    fold product location seriesQuery. rewrite Herr.
    destruct Hdata as [-> | ->]; reflexivity.
  - intros inventorySeries Hdata Hne Herr2 Herr3.
    unfold calculateProjections. fold product location seriesQuery.
    rewrite Herr, Hdata. destruct inventorySeries as [|s0 ss]; [congruence|].
    rewrite Herr2, Herr3. eexists. split; [reflexivity|].
    split; [discriminate|]. split; [apply length_map|].
    intros r Hr. apply in_map_iff in Hr. destruct Hr as (s & <- & _).
    unfold projectSeries. cbn [projections]. apply timeline_length.
  - intros series forecasts projectionDays Hh. split.
    + rewrite timeline_length. lia.
    + intros p Hin. apply timeline_In in Hin.
      destruct Hin as (d & _ & _ & Hem). apply Hem.
Qed.

Lemma empty_output_only_without_series_witness :
  error (select_inventory_series seriesWithoutData None None) = None /\
  exists results,
    calculateProjections sqrt6 0%Z midnight seriesWithoutData noParams
      = inr results /\
    List.length results = 1%nat.
Proof.
  assert (H : error (select_inventory_series seriesWithoutData None None) = None)
    by reflexivity.
  split; [exact H|].
  destruct (empty_output_only_without_series sqrt6 0%Z midnight
              seriesWithoutData noParams H) as (_ & Hsome & _).
  destruct (Hsome [aSeries]) as (results & Hr & _ & Hlen & _);
    try reflexivity; try discriminate.
  exists results. split; [exact Hr | exact Hlen].
Defined.

(** C5, as the specification states it, fails: for a series that exists
    and has no observation the output is not empty, it is a projection of
    91 days from a baseline of 0 (and of [projectionDays + 1] days from
    [calculateInventoryTimeline]). *)
Lemma no_observations_counterexample :
  data (select_inventory_series_data seriesWithoutData [id aSeries]) = Some [] /\
  (exists r,
     calculateProjections sqrt6 0%Z midnight seriesWithoutData noParams = inr [r] /\
     List.length (projections r) = 91%nat /\
     forall p, In p (projections r) -> current_stock p = 0) /\
  List.length (calculateInventoryTimeline sqrt6 0%Z midnight aSeries [] [] 2)
  = 3%nat.
Proof.
  split; [reflexivity|]. split.
  - exists (projectSeries sqrt6 0%Z midnight (Some []) None noParams aSeries).
    split.
    { cbv [calculateProjections seriesWithoutData select_inventory_series
           select_inventory_series_data select_forecast error data noParams
           param_product_id param_location_id eqFilter map].
      reflexivity. }
    split; [vm_compute; reflexivity|].
    intros p Hin. rewrite projectSeries_projections in Hin.
    apply timeline_In in Hin. destruct Hin as (d & _ & _ & Hem).
    destruct Hem as (_ & _ & _ & Hc & _). exact Hc.
  - vm_compute. reflexivity.
Qed.

(** C6: for a projection that is not empty the summary exists; its three
    counts are the numbers of days whose status is stockout, critical and
    warning; its minimum is the least projected inventory of the entries;
    its total demand is the cumulative demand of the last entry; its risk
    level is high when there is a stockout day, else medium when there
    are more than 7 critical days, else low.  When every day is optimal
    the counts are 0 and the risk level is low. *)
Theorem summary_of_projection (projections : list InventoryProjection) :
  projections <> [] ->
  exists s,
    getProjectionSummary projections = Some s /\
    stockoutDays s = count_occ Status_eq_dec (map status projections) stockout /\
    criticalDays s = count_occ Status_eq_dec (map status projections) critical /\
    warningDays s = count_occ Status_eq_dec (map status projections) warning /\
    (forall p, In p projections -> minInventory s <= projected_inventory p) /\
    (exists p, In p projections /\ minInventory s = projected_inventory p) /\
    (forall p0, totalDemand s == cumulative_demand (last projections p0)) /\
    ((0 < stockoutDays s)%nat -> riskLevel s = high) /\
    (stockoutDays s = 0%nat -> (7 < criticalDays s)%nat -> riskLevel s = medium) /\
    (stockoutDays s = 0%nat -> (criticalDays s <= 7)%nat -> riskLevel s = low) /\
    ((forall p, In p projections -> status p = optimal) ->
     stockoutDays s = 0%nat /\ criticalDays s = 0%nat /\ warningDays s = 0%nat /\
     riskLevel s = low).
Proof.
  intros Hne. destruct projections as [|p0 ps] eqn:E; [congruence|].
  rewrite <- E in *. 
  assert (Hsum : exists s, getProjectionSummary projections = Some s)
    by (rewrite E; eexists; reflexivity).
  destruct Hsum as (s & Hs). exists s.
  pose proof (riskLevel_cases projections s Hs) as (Rhigh & Rmedium & Rlow).
  assert (Hcounts :
    stockoutDays s = count_occ Status_eq_dec (map status projections) stockout /\
    criticalDays s = count_occ Status_eq_dec (map status projections) critical /\
    warningDays s = count_occ Status_eq_dec (map status projections) warning).
  { rewrite E in Hs. unfold getProjectionSummary in Hs.
    inversion Hs; subst s; clear Hs. cbn [stockoutDays criticalDays warningDays].
    rewrite <- E. rewrite !countStatus_count_occ. auto. }
  destruct Hcounts as (C1 & C2 & C3).
  split; [exact Hs|]. split; [exact C1|]. split; [exact C2|]. split; [exact C3|].
  assert (Hmin : minInventory s
                 = Math_min (projected_inventory p0) (map projected_inventory ps)).
  { rewrite E in Hs. unfold getProjectionSummary in Hs. now inversion Hs. }
  split.
  { intros p Hp. rewrite Hmin. rewrite E in Hp.
    destruct (Math_min_le (map projected_inventory ps) (projected_inventory p0))
      as [H0 Hrest].
    destruct Hp as [<-|Hp]; [exact H0|].
    apply Hrest. now apply in_map. }
  split.
  { pose proof (Math_min_attained (map projected_inventory ps)
                  (projected_inventory p0)) as Hin.
    rewrite <- Hmin in Hin. change (In (minInventory s)
      (map projected_inventory (p0 :: ps))) in Hin.
    apply in_map_iff in Hin. destruct Hin as (p & Hp & Hin).
    exists p. rewrite E. split; [exact Hin | now symmetry]. }
  split.
  { intros d.
    assert (Ht : totalDemand s
                 = orElse (option_map cumulative_demand
                             (nth_error projections (List.length projections - 1))) 0).
    { rewrite E in Hs |- *. unfold getProjectionSummary in Hs. now inversion Hs. }
    rewrite Ht, (nth_error_last projections d Hne). cbn [option_map].
    apply orElse_zero. }
  split; [exact Rhigh|]. split; [exact Rmedium|]. split; [exact Rlow|].
  intros Hall.
  assert (Hnot : forall st, st <> optimal ->
            count_occ Status_eq_dec (map status projections) st = 0%nat).
  { intros st Hst. apply count_occ_not_In. intros Hin.
    apply in_map_iff in Hin. destruct Hin as (p & Hp & Hin).
    rewrite (Hall p Hin) in Hp. congruence. }
  rewrite C1, C2, C3, !Hnot by discriminate.
  repeat split. apply Rlow; [rewrite C1 | rewrite C2];
    rewrite Hnot by discriminate; lia.
Qed.

Lemma summary_of_projection_witness :
  threeDays <> [] /\
  exists s, getProjectionSummary threeDays = Some s /\ riskLevel s = high.
Proof.
  assert (H : threeDays <> []) by discriminate.
  split; [exact H|].
  destruct (summary_of_projection threeDays H)
    as (s & Hs & C1 & _ & _ & _ & _ & _ & Rhigh & _).
  exists s. split; [exact Hs|].
  apply Rhigh. rewrite C1. vm_compute. apply le_n.
Defined.

(** C7: for a horizon that is not negative the projection has exactly
    [projectionDays + 1] entries, one for each day from day 0 through day
    [projectionDays]; a horizon of 0 gives a single entry. *)
Theorem timeline_length_horizon
    (sqrt : Q -> Q) (tz : Z) (now : Date) (series : InventorySeries)
    (inventoryData : list InventoryItem) (forecasts : list ForecastData)
    (projectionDays : Z) :
  (0 <= projectionDays)%Z ->
  List.length
    (calculateInventoryTimeline sqrt tz now series inventoryData forecasts
       projectionDays) = (Z.to_nat projectionDays + 1)%nat /\
  (forall d, (d <= Z.to_nat projectionDays)%nat ->
     exists p,
       nth_error
         (calculateInventoryTimeline sqrt tz now series inventoryData forecasts
            projectionDays) d = Some p) /\
  exists p,
    calculateInventoryTimeline sqrt tz now series inventoryData forecasts 0 = [p].
Proof.
  intros Hh. split; [rewrite timeline_length; lia|]. split.
  - intros d Hd.
    destruct (timeline_nth sqrt tz now series inventoryData forecasts
                projectionDays d) as (p & Hp & _); [lia|].
    exists p. exact Hp.
  - eexists. reflexivity.
Qed.

Lemma timeline_length_horizon_witness :
  (0 <= 3)%Z /\
  List.length
    (calculateInventoryTimeline sqrt6 0%Z midnight aSeries [mkItem (Some 100)]
       fiftyADay 3) = 4%nat.
Proof.
  assert (H : (0 <= 3)%Z) by discriminate.
  split; [exact H|].
  destruct (timeline_length_horizon sqrt6 0%Z midnight aSeries
              [mkItem (Some 100)] fiftyADay 3 H) as (Hlen & _).
  exact Hlen.
Defined.

Lemma timeline_nth_inv
    (sqrt : Q -> Q) (tz : Z) (now : Date) (series : InventorySeries)
    (inventoryData : list InventoryItem) (forecasts : list ForecastData)
    (projectionDays : Z) (d : nat) (p : InventoryProjection) :
  nth_error
    (calculateInventoryTimeline sqrt tz now series inventoryData forecasts
       projectionDays) d = Some p ->
  EmittedFor sqrt tz now series inventoryData forecasts d p.
Proof.
  intros Hp.
  assert (Hlt : (d < Z.to_nat (projectionDays + 1))%nat).
  { rewrite <- (timeline_length sqrt tz now series inventoryData forecasts).
    apply nth_error_Some. congruence. }
  destruct (timeline_nth sqrt tz now series inventoryData forecasts
              projectionDays d) as (q & Hq & Hem); [lia|].
  assert (q = p) by congruence. now subst q.
Qed.

Lemma seasonal_nonneg (tz : Z) (date : Date) : 0 <= getSeasonalAdjustment tz date.
Proof.
  unfold getSeasonalAdjustment. cbv zeta.
  destruct (seasonal_range (getMonth tz date + 1)) as [H _].
  eapply Qle_trans; [|exact H]. discriminate.
Qed.

Lemma cumulativeBefore_monotone (tz : Z) (now : Date)
    (forecasts : list ForecastData) (n m : nat) :
  NonNegativeForecasts forecasts -> (n <= m)%nat ->
  cumulativeBefore tz now forecasts n <= cumulativeBefore tz now forecasts m.
Proof.
  intros Hnn Hle. induction Hle as [|m Hle IH]; [apply Qle_refl|].
  cbn [cumulativeBefore].
  assert (H : 0 <= adjustedDemandOn tz now forecasts m).
  { unfold adjustedDemandOn. apply Qmult_le_0_compat.
    - now apply getDailyDemand_nonneg.
    - apply seasonal_nonneg. }
  lra.
Qed.

(** C8 (as amended): when no forecast value is negative, the cumulative
    demand never decreases from one day of the projection to a later
    one. *)
Theorem cumulative_demand_monotone
    (sqrt : Q -> Q) (tz : Z) (now : Date) (series : InventorySeries)
    (inventoryData : list InventoryItem) (forecasts : list ForecastData)
    (projectionDays : Z) (i j : nat) (p q : InventoryProjection) :
  NonNegativeForecasts forecasts ->
  (i <= j)%nat ->
  nth_error
    (calculateInventoryTimeline sqrt tz now series inventoryData forecasts
       projectionDays) i = Some p ->
  nth_error
    (calculateInventoryTimeline sqrt tz now series inventoryData forecasts
       projectionDays) j = Some q ->
  cumulative_demand p <= cumulative_demand q.
Proof.
  intros Hnn Hij Hp Hq.
  apply timeline_nth_inv in Hp. apply timeline_nth_inv in Hq.
  destruct Hp as (_ & _ & _ & _ & Hp & _).
  destruct Hq as (_ & _ & _ & _ & Hq & _).
  rewrite Hp, Hq, !cumulativeDemand_after. unfold cumulativeThrough.
  apply cumulativeBefore_monotone; [assumption | lia].
Qed.

Lemma cumulative_demand_monotone_witness :
  NonNegativeForecasts fiftyADay /\
  exists p q,
    nth_error
      (calculateInventoryTimeline sqrt6 0%Z midnight aSeries
         [mkItem (Some 100)] fiftyADay 3) 1 = Some p /\
    nth_error
      (calculateInventoryTimeline sqrt6 0%Z midnight aSeries
         [mkItem (Some 100)] fiftyADay 3) 3 = Some q /\
    cumulative_demand p <= cumulative_demand q.
Proof.
  assert (H : NonNegativeForecasts fiftyADay).
  { intros f v [<-|[]] Hv. inversion Hv. discriminate. }
  split; [exact H|].
  eexists. eexists.
  split; [vm_compute; reflexivity|].
  split; [vm_compute; reflexivity|].
  eapply (cumulative_demand_monotone sqrt6 0%Z midnight aSeries
            [mkItem (Some 100)] fiftyADay 3 1 3 _ _ H).
  - repeat constructor.
  - vm_compute. reflexivity.
  - vm_compute. reflexivity.
Defined.

(** C8, as the specification states it, fails: with a forecast of -5 the
    cumulative demand is -5 on day 0 and -10 on day 1. *)
Lemma cumulative_demand_counterexample :
  exists p q,
    nth_error
      (calculateInventoryTimeline sqrt6 0%Z midnight aSeries
         [mkItem (Some 100)] negativeForecast 1) 0 = Some p /\
    nth_error
      (calculateInventoryTimeline sqrt6 0%Z midnight aSeries
         [mkItem (Some 100)] negativeForecast 1) 1 = Some q /\
    cumulative_demand p == -5 /\
    cumulative_demand q == -10 /\
    cumulative_demand q < cumulative_demand p.
Proof.
  eexists. eexists.
  split; [vm_compute; reflexivity|].
  split; [vm_compute; reflexivity|].
  split; [vm_compute; reflexivity|].
  split; vm_compute; reflexivity.
Qed.

(** C9: on every day of one projection the safety stock, the reorder
    point and the current stock are the same: the safety stock is the one
    computed before the loop, the reorder point is the safety stock times
    1.5, and the current stock is the baseline inventory. *)
Theorem constant_levels
    (sqrt : Q -> Q) (tz : Z) (now : Date) (series : InventorySeries)
    (inventoryData : list InventoryItem) (forecasts : list ForecastData)
    (projectionDays : Z) (p : InventoryProjection) :
  In p (calculateInventoryTimeline sqrt tz now series inventoryData forecasts
          projectionDays) ->
  safety_stock p = calculateEnhancedSafetyStock sqrt series forecasts /\
  reorder_point p = safety_stock p * 1.5 /\
  current_stock p = currentInventoryOf inventoryData /\
  current_stock p == baselineInventory inventoryData /\
  forall q,
    In q (calculateInventoryTimeline sqrt tz now series inventoryData forecasts
            projectionDays) ->
    safety_stock q = safety_stock p /\
    reorder_point q = reorder_point p /\
    current_stock q = current_stock p.
Proof.
  intros Hp. apply timeline_In in Hp. destruct Hp as (d & _ & _ & Hem).
  destruct Hem as (_ & _ & _ & Hc & _ & Hr & Hs & _).
  split; [exact Hs|]. split; [now rewrite Hs|]. split; [exact Hc|].
  split; [rewrite Hc; apply currentInventoryOf_sum|].
  intros q Hq. apply timeline_In in Hq. destruct Hq as (e & _ & _ & Hem).
  destruct Hem as (_ & _ & _ & Hc' & _ & Hr' & Hs' & _).
  repeat split; congruence.
Qed.

Lemma constant_levels_witness :
  exists p,
    In p (calculateInventoryTimeline sqrt6 0%Z midnight aSeries
            [mkItem (Some 100)] fiftyADay 3) /\
    safety_stock p = 10 /\ reorder_point p = 10 * 1.5.
Proof.
  destruct (timeline_nth sqrt6 0%Z midnight aSeries [mkItem (Some 100)]
              fiftyADay 3 2) as (p & Hp & _); [vm_compute; discriminate|].
  apply nth_error_In in Hp. exists p. split; [exact Hp|].
  destruct (constant_levels sqrt6 0%Z midnight aSeries [mkItem (Some 100)]
              fiftyADay 3 p Hp) as (Hs & Hr & _).
  rewrite Hr, Hs. split; reflexivity.
Defined.

(** C10: the summary of an empty projection is no summary at all (null);
    a summary is produced exactly for a projection that is not empty. *)
Theorem summary_of_empty_projection (projections : list InventoryProjection) :
  getProjectionSummary [] = None /\
  (getProjectionSummary projections = None <-> projections = []).
Proof.
  split; [reflexivity|].
  destruct projections; simpl; split; intros H; congruence.
Qed.

(** * Further properties of the projection service *)

(** ** What an entry shows *)

Lemma status_of_floored (r ss rp : Q) :
  determineEnhancedInventoryStatus (Qmax 0 r) ss rp
  = determineEnhancedInventoryStatus r ss rp.
Proof.
  destruct (Qlt_le_dec 0 r) as [Hpos|Hneg].
  - assert (E : forall y, Qle_bool (Qmax 0 r) y = Qle_bool r y)
      by (intros y; now rewrite (Qmax_0_pos r Hpos)).
    unfold determineEnhancedInventoryStatus. now rewrite !E.
  - assert (E : Qle_bool (Qmax 0 r) 0 = true)
      by (now rewrite (Qmax_0_nonpos r Hneg)).
    unfold determineEnhancedInventoryStatus. rewrite E.
    replace (Qle_bool r 0) with true by (symmetry; now apply Qle_bool_iff).
    reflexivity.
Qed.

Lemma stockout_iff_nonpositive (r ss rp : Q) :
  determineEnhancedInventoryStatus r ss rp = stockout <-> r <= 0.
Proof.
  unfold determineEnhancedInventoryStatus.
  destruct (Qle_bool r 0) eqn:E.
  - apply Qle_bool_iff in E. tauto.
  - apply Qle_bool_false in E.
    destruct (Qle_bool r (ss * 0.5)); [|destruct (Qle_bool r ss)];
      (split; [discriminate | intros H; lra]).
Qed.

Lemma floored_zero_iff (r : Q) : Qmax 0 r == 0 <-> r <= 0.
Proof.
  split; intros H.
  - destruct (Qlt_le_dec 0 r) as [Hpos|Hneg]; [|exact Hneg].
    rewrite (Qmax_0_pos r Hpos) in H. lra.
  - now apply Qmax_0_nonpos.
Qed.

(** X2: flooring the projected inventory at 0 does not change what the
    status says: the status of every entry is the one its displayed
    projected inventory gives against its safety stock, and an entry is a
    stockout exactly when its displayed projected inventory is 0. *)
Theorem status_matches_displayed_inventory
    (sqrt : Q -> Q) (tz : Z) (now : Date) (series : InventorySeries)
    (inventoryData : list InventoryItem) (forecasts : list ForecastData)
    (projectionDays : Z) (p : InventoryProjection) :
  In p (calculateInventoryTimeline sqrt tz now series inventoryData forecasts
          projectionDays) ->
  status p
  = determineEnhancedInventoryStatus (projected_inventory p) (safety_stock p)
      (reorder_point p) /\
  (status p = stockout <-> projected_inventory p == 0).
Proof.
  intros Hp. apply timeline_In in Hp. destruct Hp as (d & _ & _ & Hem).
  destruct Hem as (_ & Hinv & _ & _ & _ & Hr & Hs & Hst).
  rewrite Hinv, Hr, Hs, Hst. split.
  - symmetry. apply status_of_floored.
  - rewrite stockout_iff_nonpositive, floored_zero_iff. tauto.
Qed.

Lemma status_matches_displayed_inventory_witness :
  exists p,
    In p (calculateInventoryTimeline sqrt6 0%Z midnight aSeries [] [] 2) /\
    status p = stockout.
Proof.
  destruct (timeline_nth sqrt6 0%Z midnight aSeries [] [] 2 1)
    as (p & Hp & _); [vm_compute; discriminate|].
  pose proof (nth_error_In _ _ Hp) as Hin. exists p. split; [exact Hin|].
  destruct (status_matches_displayed_inventory sqrt6 0%Z midnight aSeries
              [] [] 2 p Hin) as (_ & Hiff).
  apply Hiff. vm_compute in Hp. inversion Hp; subst p. reflexivity.
Defined.

(** ** Where the daily demand comes from *)

Lemma closestDemand_source (forecasts : list ForecastData) (date : Date) :
  (filter hasForecast forecasts = [] /\ closestDemand forecasts date = 0) \/
  (exists f v,
     In f forecasts /\ forecast f = Some v /\
     closestDemand forecasts date = orElse (Some v) 0).
Proof.
  destruct (closestDemand_cases forecasts date) as [H|(c & Hc & E)]; [now left|].
  right. apply FirstClosest_In in Hc.
  apply (Permutation_in _ (sortByDate_perm _)) in Hc.
  apply filter_In in Hc. destruct Hc as [Hin Hhas].
  unfold hasForecast in Hhas. destruct (forecast c) as [v|] eqn:Ev; [|discriminate].
  exists c, v. repeat split; assumption.
Qed.

Lemma getDailyDemand_source (forecasts : list ForecastData) (date : Date) :
  (filter hasForecast forecasts = [] /\ getDailyDemand forecasts date = 0) \/
  (exists f v,
     In f forecasts /\ forecast f = Some v /\
     getDailyDemand forecasts date = orElse (Some v) 0).
Proof.
  unfold getDailyDemand. destruct forecasts as [|f0 fs] eqn:Ef.
  - left. split; reflexivity.
  - rewrite <- Ef in *.
    destruct (find (fun f => (postdate f =? toISODate date)%Z) forecasts)
      as [exactMatch|] eqn:Efind; [|apply closestDemand_source].
    destruct (forecast exactMatch) as [v|] eqn:Ev; [|apply closestDemand_source].
    destruct (Qeq_bool v 0) eqn:Ez; [apply closestDemand_source|].
    right. exists exactMatch, v. apply find_some in Efind.
    repeat split; try tauto. simpl. now rewrite Ez.
Qed.

(** X4: the base daily demand is never made up: it is 0 or the forecast
    value of one of the forecast points given. *)
Theorem getDailyDemand_zero_or_listed
    (forecasts : list ForecastData) (date : Date) :
  getDailyDemand forecasts date = 0 \/
  exists f, In f forecasts /\ forecast f = Some (getDailyDemand forecasts date).
Proof.
  destruct (getDailyDemand_source forecasts date) as [[_ E]|(f & v & Hin & Hv & E)].
  - now left.
  - rewrite E. simpl. destruct (Qeq_bool v 0); [now left|].
    right. exists f. split; assumption.
Qed.

(** X5: when every forecast point carries the same value, that value is
    the base demand of every date, whatever the dates of the points. *)
Theorem getDailyDemand_constant_forecast
    (forecasts : list ForecastData) (v : Q) (date : Date) :
  forecasts <> [] ->
  (forall f, In f forecasts -> forecast f = Some v) ->
  getDailyDemand forecasts date == v.
Proof.
  intros Hne Hall.
  destruct (getDailyDemand_source forecasts date) as [[Hnil _]|(f & w & Hin & Hw & E)].
  - destruct forecasts as [|f0 fs]; [congruence|]. exfalso.
    simpl in Hnil. unfold hasForecast in Hnil at 1.
    rewrite (Hall f0) in Hnil by now left. discriminate.
  - rewrite E. rewrite (Hall f Hin) in Hw. inversion Hw; subst w.
    apply (orElse_zero (Some v)).
Qed.

Lemma getDailyDemand_constant_forecast_witness :
  fiftyADay <> [] /\ getDailyDemand fiftyADay evening == 50.
Proof.
  assert (H : fiftyADay <> []) by discriminate.
  split; [exact H|].
  apply (getDailyDemand_constant_forecast fiftyADay 50 evening H).
  intros f [<-|[]]. reflexivity.
Defined.

(** *** The order of the forecast points *)

Lemma find_by_date_unique (day : Z) (l : list ForecastData) (f : ForecastData) :
  NoDup (map postdate l) -> In f l -> postdate f = day ->
  find (fun g => (postdate g =? day)%Z) l = Some f.
Proof.
  induction l as [|x l IH]; intros Hnd Hin Hday; [contradiction|].
  simpl in Hnd. inversion Hnd as [|? ? Hx Hl]; subst.
  simpl. destruct (postdate x =? postdate f)%Z eqn:E.
  - destruct Hin as [->|Hin]; [reflexivity|].
    apply Z.eqb_eq in E. exfalso. apply Hx. rewrite E. now apply in_map.
  - destruct Hin as [->|Hin]; [rewrite Z.eqb_refl in E; discriminate|].
    now apply IH.
Qed.

Lemma find_by_date_permutation (day : Z) (l l' : list ForecastData) :
  Permutation l l' -> NoDup (map postdate l) ->
  find (fun g => (postdate g =? day)%Z) l
  = find (fun g => (postdate g =? day)%Z) l'.
Proof.
  intros Hperm Hnd.
  assert (Hnd' : NoDup (map postdate l')).
  { eapply Permutation_NoDup; [|exact Hnd]. now apply Permutation_map. }
  destruct (find (fun g => (postdate g =? day)%Z) l) as [f|] eqn:E.
  - apply find_some in E. destruct E as [Hin Hday]. apply Z.eqb_eq in Hday.
    symmetry. apply find_by_date_unique; try assumption.
    eapply Permutation_in; eassumption.
  - destruct (find (fun g => (postdate g =? day)%Z) l') as [f|] eqn:E';
      [|reflexivity].
    apply find_some in E'. destruct E' as [Hin Hday].
    apply (Permutation_in _ (Permutation_sym Hperm)) in Hin.
    pose proof (find_none _ _ E f Hin) as Hno. simpl in Hno. congruence.
Qed.

Lemma ascending_unique (l l' : list ForecastData) :
  Permutation l l' -> NoDup (map postdate l) ->
  AscendingDates l -> AscendingDates l' -> l = l'.
Proof.
  unfold AscendingDates. revert l'.
  induction l as [|a l IH]; intros l' Hperm Hnd Hs Hs'.
  - apply Permutation_nil in Hperm. now subst.
  - destruct l' as [|b l'].
    { apply Permutation_sym, Permutation_nil in Hperm. discriminate. }
    apply StronglySorted_inv in Hs. destruct Hs as [Hs Ha].
    apply StronglySorted_inv in Hs'. destruct Hs' as [Hs' Hb].
    rewrite Forall_forall in Ha, Hb.
    assert (Hba : In b (a :: l))
      by (apply (Permutation_in _ (Permutation_sym Hperm)); now left).
    assert (Hab : In a (b :: l')) by (apply (Permutation_in _ Hperm); now left).
    assert (Eab : a = b).
    { destruct Hba as [Hba|Hba]; [exact Hba|].
      destruct Hab as [Hab|Hab]; [now symmetry|].
      pose proof (Ha b Hba). pose proof (Hb a Hab).
      assert (Ed : postdate a = postdate b) by lia.
      simpl in Hnd. inversion Hnd as [|? ? Hx _]; subst.
      exfalso. apply Hx. rewrite Ed. now apply in_map. }
    subst b. f_equal. apply IH; try assumption.
    + eapply Permutation_cons_inv; eassumption.
    + simpl in Hnd. now inversion Hnd.
Qed.

Lemma filter_map_NoDup (keep : ForecastData -> bool) (l : list ForecastData) :
  NoDup (map postdate l) -> NoDup (map postdate (filter keep l)).
Proof.
  induction l as [|x l IH]; intros Hnd; [constructor|].
  simpl in Hnd. inversion Hnd as [|? ? Hx Hl]; subst.
  simpl. destruct (keep x); [|now apply IH].
  simpl. constructor; [|now apply IH].
  intros Hin. apply Hx. apply in_map_iff in Hin.
  destruct Hin as (g & Hg & Hin). apply filter_In in Hin.
  apply in_map_iff. exists g. tauto.
Qed.

Lemma Permutation_filter_forecasts (keep : ForecastData -> bool)
    (l l' : list ForecastData) :
  Permutation l l' -> Permutation (filter keep l) (filter keep l').
Proof.
  induction 1 as [|x l l' _ IH|x y l|l l' l'' _ IH1 _ IH2]; simpl.
  - constructor.
  - destruct (keep x); [now constructor | exact IH].
  - destruct (keep x), (keep y); try apply Permutation_refl. apply perm_swap.
  - eapply Permutation_trans; eassumption.
Qed.

Lemma sortByDate_permutation (l l' : list ForecastData) :
  Permutation l l' -> NoDup (map postdate l) -> sortByDate l = sortByDate l'.
Proof.
  intros Hperm Hnd. apply ascending_unique.
  - eapply Permutation_trans; [apply sortByDate_perm|].
    eapply Permutation_trans; [exact Hperm|].
    apply Permutation_sym, sortByDate_perm.
  - eapply Permutation_NoDup; [|exact Hnd].
    apply Permutation_map, Permutation_sym, sortByDate_perm.
  - apply sortByDate_sorted.
  - apply sortByDate_sorted.
Qed.

Lemma closestDemand_permutation (l l' : list ForecastData) (date : Date) :
  Permutation l l' -> NoDup (map postdate l) ->
  closestDemand l date = closestDemand l' date.
Proof.
  intros Hperm Hnd. unfold closestDemand.
  rewrite (sortByDate_permutation (filter hasForecast l) (filter hasForecast l')).
  - reflexivity.
  - now apply Permutation_filter_forecasts.
  - now apply filter_map_NoDup.
Qed.

(** X6: when no two forecast points have the same date, the base daily
    demand does not depend on the order in which the points are given. *)
Theorem getDailyDemand_order_independent
    (forecasts forecasts' : list ForecastData) (date : Date) :
  Permutation forecasts forecasts' ->
  NoDup (map postdate forecasts) ->
  getDailyDemand forecasts date = getDailyDemand forecasts' date.
Proof.
  intros Hperm Hnd. unfold getDailyDemand.
  rewrite (find_by_date_permutation (toISODate date) _ _ Hperm Hnd).
  rewrite (closestDemand_permutation _ _ date Hperm Hnd).
  destruct forecasts as [|f0 fs], forecasts' as [|g0 gs]; try reflexivity;
    exfalso;
    first [ apply Permutation_nil in Hperm
          | apply Permutation_sym, Permutation_nil in Hperm ];
    discriminate.
Qed.

Lemma getDailyDemand_order_independent_witness :
  getDailyDemand variedForecast evening
  = getDailyDemand (rev variedForecast) evening.
Proof.
  apply getDailyDemand_order_independent.
  - apply Permutation_rev.
  - vm_compute. repeat constructor; simpl; intuition discriminate.
Defined.

(** ** Failures and horizons of calculateProjections *)

(** X8: calculateProjections fails exactly when one of the queries it
    issues reports an error, with that error: the series query first;
    then, only when there are series, the observations query, and after
    it the forecast query. *)
Theorem calculateProjections_failure
    (sqrt : Q -> Q) (tz : Z) (now : Date) (supabase : Supabase)
    (params : ProjectionParams) (e : string) :
  let product := eqFilter (param_product_id params) in
  let location := eqFilter (param_location_id params) in
  let seriesQuery := select_inventory_series supabase product location in
  calculateProjections sqrt tz now supabase params = inl e <->
  error seriesQuery = Some e \/
  (error seriesQuery = None /\
   exists inventorySeries,
     data seriesQuery = Some inventorySeries /\ inventorySeries <> [] /\
     let dataQuery :=
       select_inventory_series_data supabase (map id inventorySeries) in
     (error dataQuery = Some e \/
      (error dataQuery = None /\
       error (select_forecast supabase (toISODate now) product location)
       = Some e))).
Proof.
  intros product location seriesQuery. unfold calculateProjections.
  fold product location seriesQuery.
  destruct (error seriesQuery) as [e1|] eqn:E1.
  { split.
    - intros H. left. congruence.
    - intros [H|[H _]]; congruence. }
  destruct (data seriesQuery) as [[|s0 ss]|] eqn:D1.
  - split; [discriminate|].
    intros [H|(_ & rows & Hrows & Hne & _)]; [discriminate|]. congruence.
  - set (rows := s0 :: ss) in *.
    destruct (error (select_inventory_series_data supabase (map id rows)))
      as [e2|] eqn:E2.
    { split.
      - intros H. right. split; [reflexivity|]. exists rows.
        split; [reflexivity|]. split; [discriminate|]. cbv zeta. left.
        rewrite E2. congruence.
      - intros [H|(_ & rows' & Hrows & _ & H)]; [discriminate|].
        inversion Hrows; subst rows'. cbv zeta in H. fold rows in H.
        rewrite E2 in H. destruct H as [H|[H _]]; congruence. }
    destruct (error (select_forecast supabase (toISODate now) product location))
      as [e3|] eqn:E3.
    { split.
      - intros H. right. split; [reflexivity|]. exists rows.
        split; [reflexivity|]. split; [discriminate|]. cbv zeta. right.
        split; [exact E2 | congruence].
      - intros [H|(_ & rows' & Hrows & _ & H)]; [discriminate|].
        inversion Hrows; subst rows'. cbv zeta in H. fold rows in H.
        rewrite E2 in H. destruct H as [H|[_ H]]; congruence. }
    split; [discriminate|].
    intros [H|(_ & rows' & Hrows & _ & H)]; [discriminate|].
    inversion Hrows; subst rows'. cbv zeta in H. fold rows in H.
    rewrite E2 in H. destruct H as [H|[_ H]]; congruence.
  - split; [discriminate|].
    intros [H|(_ & rows & Hrows & _)]; discriminate.
Qed.

Lemma calculateProjections_results
    (sqrt : Q -> Q) (tz : Z) (now : Date) (supabase : Supabase)
    (params : ProjectionParams) (results : list SeriesProjections)
    (r : SeriesProjections) :
  calculateProjections sqrt tz now supabase params = inr results ->
  In r results ->
  List.length (projections r) = Z.to_nat (projectionDaysOf params + 1).
Proof.
  unfold calculateProjections. intros H Hin.
  destruct (error _); [discriminate|].
  destruct (data _) as [[|s0 ss]|].
  - inversion H; subst. contradiction.
  - destruct (error _); [discriminate|]. destruct (error _); [discriminate|].
    inversion H; subst results.
    destruct Hin as [<-|Hin];
      [|apply in_map_iff in Hin; destruct Hin as (s & <- & _)];
      rewrite projectSeries_projections; apply timeline_length.
  - inversion H; subst. contradiction.
Qed.

(** X9: through calculateProjections a requested horizon of 0 is not
    kept: like an absent one it is replaced by 90, so every projection
    returned then has 91 days. *)
Theorem calculateProjections_horizon_zero
    (sqrt : Q -> Q) (tz : Z) (now : Date) (supabase : Supabase)
    (params : ProjectionParams) (results : list SeriesProjections)
    (r : SeriesProjections) :
  calculateProjections sqrt tz now supabase params = inr results ->
  In r results ->
  projection_days params = None \/ projection_days params = Some 0%Z ->
  List.length (projections r) = 91%nat.
Proof.
  intros H Hin Hdays.
  rewrite (calculateProjections_results sqrt tz now supabase params results r H Hin).
  unfold projectionDaysOf. destruct Hdays as [-> | ->]; reflexivity.
Qed.

Lemma calculateProjections_horizon_zero_witness :
  exists r,
    calculateProjections sqrt6 0%Z midnight seriesWithoutData
      {| param_product_id := None; param_location_id := None;
         param_warehouse_id := None; projection_days := Some 0%Z |} = inr [r] /\
    List.length (projections r) = 91%nat.
Proof.
  exists (projectSeries sqrt6 0%Z midnight (Some []) None
            {| param_product_id := None; param_location_id := None;
               param_warehouse_id := None; projection_days := Some 0%Z |} aSeries).
  assert (H : calculateProjections sqrt6 0%Z midnight seriesWithoutData
      {| param_product_id := None; param_location_id := None;
         param_warehouse_id := None; projection_days := Some 0%Z |}
      = inr [projectSeries sqrt6 0%Z midnight (Some []) None
            {| param_product_id := None; param_location_id := None;
               param_warehouse_id := None; projection_days := Some 0%Z |} aSeries]).
  { cbv [calculateProjections seriesWithoutData select_inventory_series
         select_inventory_series_data select_forecast error data
         param_product_id param_location_id eqFilter map].
    reflexivity. }
  split; [exact H|].
  apply (calculateProjections_horizon_zero sqrt6 0%Z midnight seriesWithoutData
           _ _ _ H (or_introl eq_refl)).
  right. reflexivity.
Defined.

(** ** The summary of a projection *)

Lemma summary_exists (ps : list InventoryProjection) :
  ps <> [] -> exists s, getProjectionSummary ps = Some s.
Proof.
  destruct ps as [|p0 ps]; [congruence|]. intros _. eexists. reflexivity.
Qed.

Lemma summary_counts (ps : list InventoryProjection) (s : Summary) :
  getProjectionSummary ps = Some s ->
  stockoutDays s = countStatus stockout ps /\
  criticalDays s = countStatus critical ps /\
  warningDays s = countStatus warning ps.
Proof.
  destruct ps as [|p0 ps]; [discriminate|]. intros H.
  unfold getProjectionSummary in H. inversion H. repeat split.
Qed.

Lemma countStatus_positive (st : Status) (ps : list InventoryProjection) :
  (0 < countStatus st ps)%nat <-> exists p, In p ps /\ status p = st.
Proof.
  rewrite countStatus_count_occ.
  change (0 < count_occ Status_eq_dec (map status ps) st)%nat
    with (count_occ Status_eq_dec (map status ps) st > 0)%nat.
  rewrite <- count_occ_In, in_map_iff.
  split; intros (p & H1 & H2); exists p; tauto.
Qed.

Lemma riskLevel_high_iff (ps : list InventoryProjection) (s : Summary) :
  getProjectionSummary ps = Some s ->
  (riskLevel s = high <-> exists p, In p ps /\ status p = stockout).
Proof.
  intros H. destruct (riskLevel_cases ps s H) as (Rhigh & Rmedium & Rlow).
  destruct (summary_counts ps s H) as (C & _).
  rewrite <- countStatus_positive, <- C. split.
  - intros Hh. destruct (Nat.eq_dec (stockoutDays s) 0) as [E|E]; [|lia].
    destruct (Nat.le_gt_cases (criticalDays s) 7) as [L|G].
    + rewrite Rlow in Hh by assumption. discriminate.
    + rewrite Rmedium in Hh by assumption. discriminate.
  - exact Rhigh.
Qed.

(** X10: the summary of a projection over a horizon that is not negative
    is never null, and its risk level is high exactly when some day of
    the projection shows a projected inventory of 0. *)
Theorem summary_of_timeline
    (sqrt : Q -> Q) (tz : Z) (now : Date) (series : InventorySeries)
    (inventoryData : list InventoryItem) (forecasts : list ForecastData)
    (projectionDays : Z) :
  (0 <= projectionDays)%Z ->
  exists s,
    getProjectionSummary
      (calculateInventoryTimeline sqrt tz now series inventoryData forecasts
         projectionDays) = Some s /\
    (riskLevel s = high <->
     exists p,
       In p (calculateInventoryTimeline sqrt tz now series inventoryData
               forecasts projectionDays) /\
       projected_inventory p == 0).
Proof.
  intros Hh.
  set (tl := calculateInventoryTimeline sqrt tz now series inventoryData
               forecasts projectionDays).
  assert (Hlen : List.length tl = S (Z.to_nat projectionDays))
    by (unfold tl; rewrite timeline_length; lia).
  assert (Hne : tl <> []) by (intros E; rewrite E in Hlen; discriminate).
  destruct (summary_exists tl Hne) as (s & Hs). exists s.
  assert (Hstock : forall p, In p tl ->
            (status p = stockout <-> projected_inventory p == 0)).
  { intros p Hp. apply timeline_In in Hp. destruct Hp as (d & _ & _ & Hem).
    destruct Hem as (_ & Hinv & _ & _ & _ & _ & _ & Hst).
    rewrite Hinv, Hst.
    rewrite stockout_iff_nonpositive, floored_zero_iff. tauto. }
  split; [exact Hs|].
  rewrite (riskLevel_high_iff tl s Hs).
  split; intros (p & Hp & H); exists p; (split; [exact Hp|]);
    now apply (Hstock p Hp).
Qed.

Lemma summary_of_timeline_witness :
  (0 <= 2)%Z /\
  exists s,
    getProjectionSummary
      (calculateInventoryTimeline sqrt6 0%Z midnight aSeries [] [] 2) = Some s /\
    riskLevel s = high.
Proof.
  assert (H : (0 <= 2)%Z) by discriminate.
  split; [exact H|].
  destruct (summary_of_timeline sqrt6 0%Z midnight aSeries [] [] 2 H)
    as (s & Hs & Hrisk).
  exists s. split; [exact Hs|]. apply Hrisk.
  eexists. split; [left; reflexivity|]. vm_compute. reflexivity.
Defined.

Lemma countStatus_partition (ps : list InventoryProjection) :
  (countStatus stockout ps + countStatus critical ps + countStatus warning ps
   + countStatus optimal ps = List.length ps)%nat.
Proof.
  unfold countStatus. induction ps as [|p ps IH]; [reflexivity|].
  simpl. destruct (status p); simpl; lia.
Qed.

(** X11: the three counts of a summary never count a day twice: with the
    number of optimal days they add up to the number of days, so together
    they are at most the length of the projection. *)
Theorem summary_counts_partition
    (projections : list InventoryProjection) (s : Summary) :
  getProjectionSummary projections = Some s ->
  (stockoutDays s + criticalDays s + warningDays s
   + countStatus optimal projections = List.length projections)%nat /\
  (stockoutDays s + criticalDays s + warningDays s
   <= List.length projections)%nat.
Proof.
  intros H. destruct (summary_counts projections s H) as (-> & -> & ->).
  pose proof (countStatus_partition projections). lia.
Qed.

Lemma summary_counts_partition_witness :
  exists s,
    getProjectionSummary threeDays = Some s /\
    (stockoutDays s + criticalDays s + warningDays s <= 3)%nat.
Proof.
  eexists. split; [reflexivity|].
  apply (summary_counts_partition threeDays _ eq_refl).
Defined.

(** X13: a negative horizon gives an empty projection, and the summary of
    that projection is null. *)
Theorem negative_horizon_empty
    (sqrt : Q -> Q) (tz : Z) (now : Date) (series : InventorySeries)
    (inventoryData : list InventoryItem) (forecasts : list ForecastData)
    (projectionDays : Z) :
  (projectionDays < 0)%Z ->
  calculateInventoryTimeline sqrt tz now series inventoryData forecasts
    projectionDays = [] /\
  getProjectionSummary
    (calculateInventoryTimeline sqrt tz now series inventoryData forecasts
       projectionDays) = None.
Proof.
  intros Hneg.
  assert (E : calculateInventoryTimeline sqrt tz now series inventoryData
                forecasts projectionDays = []).
  { apply length_zero_iff_nil. rewrite timeline_length. lia. }
  rewrite E. split; reflexivity.
Qed.

Lemma negative_horizon_empty_witness :
  (-3 < 0)%Z /\
  calculateInventoryTimeline sqrt6 0%Z midnight aSeries [mkItem (Some 100)]
    fiftyADay (-3) = [].
Proof.
  assert (H : (-3 < 0)%Z) by reflexivity.
  split; [exact H|].
  apply (negative_horizon_empty sqrt6 0%Z midnight aSeries [mkItem (Some 100)]
           fiftyADay (-3) H).
Defined.

(** * The chart service *)

(** ** Months *)

Lemma Month_eqb_eq (a b : Month) : Month_eqb a b = true <-> a = b.
Proof.
  destruct a as [y m], b as [y' m']. unfold Month_eqb. simpl.
  rewrite andb_true_iff, !Z.eqb_eq. split.
  - intros [-> ->]. reflexivity.
  - intros H. inversion H. auto.
Qed.

Lemma Month_eqb_refl (a : Month) : Month_eqb a a = true.
Proof. now apply Month_eqb_eq. Qed.

Lemma Month_eqb_neq (a b : Month) : Month_eqb a b = false <-> a <> b.
Proof.
  rewrite <- Month_eqb_eq. destruct (Month_eqb a b); split; congruence.
Qed.

Lemma Month_eqb_sym (a b : Month) : Month_eqb a b = Month_eqb b a.
Proof.
  destruct (Month_eqb b a) eqn:E.
  - apply Month_eqb_eq in E. subst. apply Month_eqb_refl.
  - apply Month_eqb_neq. apply Month_eqb_neq in E. congruence.
Qed.

Lemma Month_leb_total (a b : Month) :
  Month_leb a b = false -> Month_lt b a.
Proof.
  destruct a as [y m], b as [y' m']. unfold Month_leb, Month_lt. simpl.
  rewrite orb_false_iff, andb_false_iff, Z.ltb_ge, Z.eqb_neq, Z.leb_gt. lia.
Qed.

Lemma Month_leb_lt (a b : Month) :
  Month_leb a b = true -> a <> b -> Month_lt a b.
Proof.
  destruct a as [y m], b as [y' m']. unfold Month_leb, Month_lt. simpl.
  rewrite orb_true_iff, andb_true_iff, Z.ltb_lt, Z.eqb_eq, Z.leb_le.
  intros H Hne.
  destruct H as [H|[-> H]]; [now left|]. right. split; [reflexivity|].
  assert (m <> m') by congruence. lia.
Qed.

Lemma Month_lt_leb (a b : Month) : Month_lt a b -> Month_leb a b = true.
Proof.
  destruct a as [y m], b as [y' m']. unfold Month_leb, Month_lt. simpl.
  rewrite orb_true_iff, andb_true_iff, Z.ltb_lt, Z.eqb_eq, Z.leb_le. lia.
Qed.

Lemma Month_lt_trans (a b c : Month) : Month_lt a b -> Month_lt b c -> Month_lt a c.
Proof.
  destruct a as [y m], b as [y' m'], c as [y'' m'']. unfold Month_lt. simpl. lia.
Qed.

Lemma Month_lt_irrefl (a : Month) : ~ Month_lt a a.
Proof. destruct a as [y m]. unfold Month_lt. simpl. lia. Qed.

(** ** The totals by month *)

Lemma totalOfMonth_add (k k' : Month) (a : Q) (acc : MonthTotals) :
  totalOfMonth k (addToMonth k' a acc)
  == totalOfMonth k acc + (if Month_eqb k' k then a else 0).
Proof.
  induction acc as [|[m t] rest IH]; simpl.
  - destruct (Month_eqb k' k); ring.
  - destruct (Month_eqb m k') eqn:E; simpl.
    + apply Month_eqb_eq in E. subst m.
      destruct (Month_eqb k' k); ring.
    + destruct (Month_eqb m k) eqn:E'; [|exact IH].
      apply Month_eqb_eq in E'. subst m. rewrite Month_eqb_sym, E. ring.
Qed.

Lemma months_add (k k' : Month) (a : Q) (acc : MonthTotals) :
  In k (map fst (addToMonth k' a acc)) <-> k = k' \/ In k (map fst acc).
Proof.
  induction acc as [|[m t] rest IH]; simpl.
  - intuition.
  - destruct (Month_eqb m k') eqn:E; simpl.
    + apply Month_eqb_eq in E. subst m. intuition.
    + rewrite IH. intuition.
Qed.

Lemma months_add_NoDup (k' : Month) (a : Q) (acc : MonthTotals) :
  NoDup (map fst acc) -> NoDup (map fst (addToMonth k' a acc)).
Proof.
  induction acc as [|[m t] rest IH]; intros Hnd; simpl.
  - constructor; [intros [] | constructor].
  - simpl in Hnd. inversion Hnd as [|? ? Hm Hrest]; subst.
    destruct (Month_eqb m k') eqn:E; simpl.
    + now constructor.
    + constructor; [|now apply IH].
      rewrite months_add. apply Month_eqb_neq in E. intuition.
Qed.

Section Grouping.

Variable A : Type.
Variable monthOf : A -> Month.
Variable amount : A -> Q.

Local Abbreviation step :=
  (fun (acc : MonthTotals) (item : A) =>
     addToMonth (monthOf item) (amount item) acc).

Lemma monthSum_cons (k : Month) (x : A) (items : list A) :
  monthSum monthOf amount k (x :: items)
  == (if Month_eqb (monthOf x) k then amount x else 0)
     + monthSum monthOf amount k items.
Proof.
  unfold monthSum. simpl. destruct (Month_eqb (monthOf x) k); simpl; ring.
Qed.

Lemma totalOfMonth_fold (k : Month) (items : list A) :
  forall acc,
    totalOfMonth k (fold_left step items acc)
    == totalOfMonth k acc + monthSum monthOf amount k items.
Proof.
  induction items as [|x items IH]; intros acc.
  - unfold monthSum. simpl. ring.
  - cbn [fold_left]. rewrite IH, totalOfMonth_add, monthSum_cons. ring.
Qed.

Lemma months_fold (k : Month) (items : list A) :
  forall acc,
    In k (map fst (fold_left step items acc)) <->
    In k (map fst acc) \/ exists item, In item items /\ monthOf item = k.
Proof.
  induction items as [|x items IH]; intros acc.
  - simpl. split; [auto | intros [H|(item & [] & _)]; exact H].
  - cbn [fold_left]. rewrite IH, months_add. split.
    + intros [[->|H]|(item & Hin & Hk)].
      * right. exists x. split; [now left | reflexivity].
      * now left.
      * right. exists item. split; [now right | exact Hk].
    + intros [H|(item & [<-|Hin] & Hk)].
      * left. now right.
      * left. left. now symmetry.
      * right. exists item. split; assumption.
Qed.

Lemma months_fold_NoDup (items : list A) :
  forall acc, NoDup (map fst acc) -> NoDup (map fst (fold_left step items acc)).
Proof.
  induction items as [|x items IH]; intros acc Hnd; [exact Hnd|].
  cbn [fold_left]. apply IH. now apply months_add_NoDup.
Qed.

End Grouping.

(** ** The set of months *)

Lemma setAdd_In (k month : Month) (set : list Month) :
  In k (setAdd set month) <-> In k set \/ k = month.
Proof.
  unfold setAdd. destruct (existsb (Month_eqb month) set) eqn:E.
  - apply existsb_exists in E. destruct E as (m & Hm & Em).
    apply Month_eqb_eq in Em. subst m. intuition. now subst.
  - rewrite in_app_iff. simpl. intuition.
Qed.

Lemma setAdd_NoDup (month : Month) (set : list Month) :
  NoDup set -> NoDup (setAdd set month).
Proof.
  intros Hnd. unfold setAdd.
  destruct (existsb (Month_eqb month) set) eqn:E; [exact Hnd|].
  apply NoDup_app; [exact Hnd | constructor; [intros [] | constructor] |].
  intros k Hk [Ek|[]]. subst k.
  assert (Ht : existsb (Month_eqb month) set = true).
  { apply existsb_exists. exists month. split; [exact Hk | apply Month_eqb_refl]. }
  congruence.
Qed.

Lemma setOf_from (months : list Month) :
  forall set,
    NoDup set ->
    NoDup (fold_left setAdd months set) /\
    forall k, In k (fold_left setAdd months set) <-> In k set \/ In k months.
Proof.
  induction months as [|m months IH]; intros set Hnd.
  - simpl. split; [exact Hnd | intuition].
  - cbn [fold_left]. destruct (IH (setAdd set m) (setAdd_NoDup m set Hnd))
      as [H1 H2].
    split; [exact H1|]. intros k. rewrite H2, setAdd_In. simpl. intuition.
Qed.

Lemma setOf_NoDup (months : list Month) : NoDup (setOf months).
Proof. apply (setOf_from months []). constructor. Qed.

Lemma setOf_In (k : Month) (months : list Month) :
  In k (setOf months) <-> In k months.
Proof.
  unfold setOf. destruct (setOf_from months [] (NoDup_nil _)) as [_ H].
  rewrite H. simpl. intuition.
Qed.

(** ** The sort by month *)

Lemma insertByMonth_perm (x : InventoryProjectionRow)
    (l : list InventoryProjectionRow) :
  Permutation (insertByMonth x l) (x :: l).
Proof.
  induction l as [|y l IH]; simpl.
  - apply Permutation_refl.
  - destruct (Month_leb (projection_month x) (projection_month y)).
    + apply Permutation_refl.
    + eapply Permutation_trans; [apply perm_skip, IH | apply perm_swap].
Qed.

Lemma sortByMonth_perm (l : list InventoryProjectionRow) :
  Permutation (sortByMonth l) l.
Proof.
  induction l as [|x l IH]; simpl.
  - apply Permutation_refl.
  - eapply Permutation_trans; [apply insertByMonth_perm | now apply perm_skip].
Qed.

Local Abbreviation MonthsAscend :=
  (StronglySorted
     (fun a b : InventoryProjectionRow =>
        Month_lt (projection_month a) (projection_month b))).

Lemma insertByMonth_ascend (x : InventoryProjectionRow)
    (l : list InventoryProjectionRow) :
  ~ In (projection_month x) (map projection_month l) ->
  MonthsAscend l -> MonthsAscend (insertByMonth x l).
Proof.
  induction l as [|y l IH]; intros Hnew Hs; simpl.
  - constructor; [constructor | constructor].
  - assert (Hxy : projection_month x <> projection_month y)
      by (intros E; apply Hnew; left; now symmetry).
    apply StronglySorted_inv in Hs. destruct Hs as [Hs Hy].
    destruct (Month_leb (projection_month x) (projection_month y)) eqn:E.
    + pose proof (Month_leb_lt _ _ E Hxy) as Hlt.
      constructor; [now constructor|].
      constructor; [exact Hlt|].
      eapply Forall_impl; [|exact Hy]. simpl. intros z Hz.
      eapply Month_lt_trans; eassumption.
    + apply Month_leb_total in E.
      constructor.
      * apply IH; [|exact Hs]. intros Hin. apply Hnew. now right.
      * apply Forall_forall. intros z Hz.
        apply (Permutation_in _ (insertByMonth_perm x l)) in Hz.
        destruct Hz as [<-|Hz]; [exact E|].
        rewrite Forall_forall in Hy. now apply Hy.
Qed.

Lemma sortByMonth_ascend (l : list InventoryProjectionRow) :
  NoDup (map projection_month l) -> MonthsAscend (sortByMonth l).
Proof.
  induction l as [|x l IH]; intros Hnd; simpl; [constructor|].
  simpl in Hnd. inversion Hnd as [|? ? Hx Hl]; subst.
  apply insertByMonth_ascend; [|now apply IH].
  intros Hin. apply Hx.
  eapply Permutation_in; [|exact Hin].
  apply Permutation_map, sortByMonth_perm.
Qed.

(** ** combineInventoryAndForecastData *)

Section Combine.

Variable inventoryData : list InventoryDataRow.
Variable forecastData : list ForecastData.

Local Abbreviation allMonths :=
  (setOf (map fst (inventoryByMonthOf inventoryData)
          ++ map fst (forecastByMonthOf forecastData))).

Local Abbreviation rowOfMonth :=
  (fun month : Month =>
     {| projection_month := month;
        chart_product_id :=
          orEmpty (match inventoryData with
                   | first :: _ => row_product_id first
                   | [] => None
                   end);
        chart_location_id :=
          orEmpty (match inventoryData with
                   | first :: _ => row_location_id first
                   | [] => None
                   end);
        forecasted_demand := totalOfMonth month (forecastByMonthOf forecastData);
        projected_ending_inventory :=
          totalOfMonth month (inventoryByMonthOf inventoryData)
          - totalOfMonth month (forecastByMonthOf forecastData) |}).

Lemma combine_perm :
  Permutation (combineInventoryAndForecastData inventoryData forecastData)
    (map rowOfMonth allMonths).
Proof. unfold combineInventoryAndForecastData. apply sortByMonth_perm. Qed.

Lemma combine_months :
  map projection_month (map rowOfMonth allMonths) = allMonths.
Proof. rewrite map_map. simpl. apply map_id. Qed.

Lemma allMonths_In (month : Month) :
  In month allMonths <->
  (exists item, In item inventoryData /\ inventoryMonth item = month) \/
  (exists item, In item forecastData /\ forecastMonth item = month).
Proof.
  rewrite setOf_In, in_app_iff.
  unfold inventoryByMonthOf, forecastByMonthOf.
  rewrite (months_fold InventoryDataRow inventoryMonth
             (fun item => orElse (row_value item) 0) month inventoryData []).
  rewrite (months_fold ForecastData forecastMonth
             (fun item => orElse (forecast item) 0) month forecastData []).
  simpl. tauto.
Qed.

Lemma forecastTotal_monthSum (month : Month) :
  totalOfMonth month (forecastByMonthOf forecastData)
  == monthSum forecastMonth (fun item => nullAsZero (forecast item)) month
       forecastData.
Proof.
  unfold forecastByMonthOf.
  rewrite (totalOfMonth_fold ForecastData forecastMonth
             (fun item => orElse (forecast item) 0) month forecastData []).
  simpl. rewrite Qplus_0_l. unfold monthSum. apply Qsum_map_ext.
  intros f _. apply orElse_zero.
Qed.

Lemma inventoryTotal_monthSum (month : Month) :
  totalOfMonth month (inventoryByMonthOf inventoryData)
  == monthSum inventoryMonth (fun item => nullAsZero (row_value item)) month
       inventoryData.
Proof.
  unfold inventoryByMonthOf.
  rewrite (totalOfMonth_fold InventoryDataRow inventoryMonth
             (fun item => orElse (row_value item) 0) month inventoryData []).
  simpl. rewrite Qplus_0_l. unfold monthSum. apply Qsum_map_ext.
  intros f _. apply orElse_zero.
Qed.

Lemma combine_row (row : InventoryProjectionRow) :
  In row (combineInventoryAndForecastData inventoryData forecastData) ->
  In (projection_month row) allMonths /\ row = rowOfMonth (projection_month row).
Proof.
  intros Hin. apply (Permutation_in _ combine_perm) in Hin.
  apply in_map_iff in Hin. destruct Hin as (m & <- & Hm). simpl. auto.
Qed.

End Combine.

(** X14: the rows of the monthly chart come in strictly ascending order
    of month: every month appears once. *)
Theorem chart_months_ascending
    (inventoryData : list InventoryDataRow) (forecastData : list ForecastData) :
  StronglySorted
    (fun a b => Month_lt (projection_month a) (projection_month b))
    (combineInventoryAndForecastData inventoryData forecastData).
Proof.
  unfold combineInventoryAndForecastData. apply sortByMonth_ascend.
  rewrite combine_months. apply setOf_NoDup.
Qed.

(** X15: the months of the chart are exactly the months in which there is
    an observation or a forecast point; without observations and
    forecasts the chart is empty. *)
Theorem chart_months_cover
    (inventoryData : list InventoryDataRow) (forecastData : list ForecastData)
    (month : Month) :
  (In month
     (map projection_month
        (combineInventoryAndForecastData inventoryData forecastData)) <->
   (exists item, In item inventoryData /\ inventoryMonth item = month) \/
   (exists item, In item forecastData /\ forecastMonth item = month)) /\
  combineInventoryAndForecastData [] [] = [].
Proof.
  split; [|reflexivity].
  rewrite <- allMonths_In, <- combine_months. split; intros H.
  - eapply Permutation_in; [|exact H].
    apply Permutation_map, combine_perm.
  - eapply Permutation_in; [|exact H].
    apply Permutation_map, Permutation_sym, combine_perm.
Qed.

(** X16: the row of a month shows, as forecasted demand, the sum of the
    forecast values of that month and, as projected ending inventory,
    the sum of the observation values of that month minus that demand,
    null values counting as 0. *)
Theorem chart_row_values
    (inventoryData : list InventoryDataRow) (forecastData : list ForecastData)
    (row : InventoryProjectionRow) :
  In row (combineInventoryAndForecastData inventoryData forecastData) ->
  let demand :=
    monthSum forecastMonth (fun item => nullAsZero (forecast item))
      (projection_month row) forecastData in
  let stock :=
    monthSum inventoryMonth (fun item => nullAsZero (row_value item))
      (projection_month row) inventoryData in
  forecasted_demand row == demand /\
  projected_ending_inventory row == stock - demand.
Proof.
  intros Hin demand stock. apply combine_row in Hin. destruct Hin as [_ E].
  rewrite E. cbn [forecasted_demand projected_ending_inventory projection_month].
  subst demand stock.
  rewrite (forecastTotal_monthSum forecastData),
    (inventoryTotal_monthSum inventoryData).
  split; reflexivity.
Qed.

Lemma chart_row_values_witness :
  exists row,
    In row (combineInventoryAndForecastData chartInventory variedForecast) /\
    projection_month row = (2025, 3)%Z /\
    projected_ending_inventory row == -50.
Proof.
  assert (H : exists row,
             nth_error (combineInventoryAndForecastData chartInventory
                          variedForecast) 0 = Some row /\
             projection_month row = (2025, 3)%Z).
  { eexists. split; vm_compute; reflexivity. }
  destruct H as (row & Hrow & Hm). apply nth_error_In in Hrow.
  exists row. split; [exact Hrow|]. split; [exact Hm|].
  destruct (chart_row_values chartInventory variedForecast row Hrow) as (_ & H).
  rewrite H, Hm. vm_compute. reflexivity.
Defined.

(** ** getChartData *)

Lemma chartPoint_months (rows : list InventoryProjectionRow) :
  map point_projection_month
    (map (fun item =>
            {| point_projection_month := projection_month item;
               point_forecasted_demand := orElse (Some (forecasted_demand item)) 0;
               point_projected_ending_inventory :=
                 orElse (Some (projected_ending_inventory item)) 0 |}) rows)
  = map projection_month rows.
Proof. rewrite map_map. reflexivity. Qed.

Lemma combine_months_In
    (inventoryData : list InventoryDataRow) (forecastData : list ForecastData)
    (month : Month) :
  In month
    (map projection_month
       (combineInventoryAndForecastData inventoryData forecastData)) <->
  (exists item, In item inventoryData /\ inventoryMonth item = month) \/
  (exists item, In item forecastData /\ forecastMonth item = month).
Proof.
  rewrite <- allMonths_In, <- combine_months. split; intros H.
  - eapply Permutation_in; [|exact H].
    apply Permutation_map, combine_perm.
  - eapply Permutation_in; [|exact H].
    apply Permutation_map, Permutation_sym, combine_perm.
Qed.

Lemma StronglySorted_map_months (rows : list InventoryProjectionRow) :
  StronglySorted
    (fun a b => Month_lt (projection_month a) (projection_month b)) rows ->
  StronglySorted Month_lt (map projection_month rows).
Proof.
  induction 1 as [|row rows _ IH Hall]; simpl; constructor; [exact IH|].
  apply Forall_forall. intros m Hm. apply in_map_iff in Hm.
  destruct Hm as (r & <- & Hr). rewrite Forall_forall in Hall. now apply Hall.
Qed.

(** X18: the chart data depend on the filters only through the product
    and the location, an empty text counting as no filter: the customer
    filter has no effect on what getChartData returns. *)
Theorem getChartData_ignores_customer
    (supabase : ChartSupabase) (filters filters' : ChartFilters) :
  eqFilter (filter_product_id filters) = eqFilter (filter_product_id filters') ->
  eqFilter (filter_location_id filters) = eqFilter (filter_location_id filters') ->
  getChartData supabase filters = getChartData supabase filters'.
Proof.
  intros Hp Hl. unfold getChartData. rewrite Hp, Hl. reflexivity.
Qed.

Lemma getChartData_ignores_customer_witness :
  getChartData chartBackend
    {| filter_product_id := Some "P"%string; filter_location_id := None;
       filter_customer_id := Some "C"%string |}
  = getChartData chartBackend
      {| filter_product_id := Some "P"%string;
         filter_location_id := Some EmptyString;
         filter_customer_id := None |}.
Proof.
  apply getChartData_ignores_customer; reflexivity.
Defined.

(** X19: when the series query reports no error, getChartData returns an
    empty chart if it finds no series; if it finds some and the two other
    queries report no error, it returns one point per month, in strictly
    ascending order of month, pooling the rows of all the series: the
    months of the points are exactly the months in which some observation
    or some forecast point returned falls. *)
Theorem getChartData_success
    (supabase : ChartSupabase) (filters : ChartFilters) :
  let product := eqFilter (filter_product_id filters) in
  let location := eqFilter (filter_location_id filters) in
  let seriesQuery := chart_inventory_series supabase product location in
  error seriesQuery = None ->
  (data seriesQuery = None \/ data seriesQuery = Some [] ->
   getChartData supabase filters = inr []) /\
  (forall inventorySeries,
     data seriesQuery = Some inventorySeries -> inventorySeries <> [] ->
     let dataQuery :=
       chart_inventory_series_data supabase (map id inventorySeries) in
     let forecastQuery := chart_forecast supabase product location in
     error dataQuery = None -> error forecastQuery = None ->
     exists points,
       getChartData supabase filters = inr points /\
       StronglySorted Month_lt (map point_projection_month points) /\
       forall month,
         In month (map point_projection_month points) <->
         (exists item,
            In item (orEmptyList (data dataQuery)) /\
            inventoryMonth item = month) \/
         (exists item,
            In item (orEmptyList (data forecastQuery)) /\
            forecastMonth item = month)).
Proof.
  intros product location seriesQuery Herr. split.
  - intros Hdata. unfold getChartData. fold product location seriesQuery.
    rewrite Herr. destruct Hdata as [-> | ->]; reflexivity.
  - intros inventorySeries Hdata Hne dataQuery forecastQuery E2 E3.
    unfold getChartData. fold product location seriesQuery.
    rewrite Herr, Hdata. destruct inventorySeries as [|s0 ss]; [congruence|].
    fold dataQuery forecastQuery. rewrite E2, E3.
    eexists. split; [reflexivity|].
    rewrite chartPoint_months. split.
    + apply StronglySorted_map_months.
      unfold combineInventoryAndForecastData. apply sortByMonth_ascend.
      rewrite combine_months. apply setOf_NoDup.
    + intros month. apply combine_months_In.
Qed.

Lemma getChartData_success_witness :
  error (chart_inventory_series chartBackend None None) = None /\
  exists points,
    getChartData chartBackend noFilters = inr points /\
    In (2025, 4)%Z (map point_projection_month points).
Proof.
  assert (H : error (chart_inventory_series chartBackend None None) = None)
    by reflexivity.
  split; [exact H|].
  destruct (getChartData_success chartBackend noFilters H) as (_ & Hsome).
  specialize (Hsome [aSeries] eq_refl).
  assert (Hne : [aSeries] <> []) by discriminate.
  specialize (Hsome Hne). cbv zeta in Hsome.
  specialize (Hsome eq_refl eq_refl).
  destruct Hsome as (points & Hp & _ & Hmonths).
  exists points. split; [exact Hp|]. apply Hmonths.
  left. exists (mkRow (march15 + 20) (Some 30)).
  split; [right; left; reflexivity | vm_compute; reflexivity].
Defined.

(** * The supply network graph *)

Lemma everyFrom_shift (b : list FlowNode) (y : FlowNode) (a : list FlowNode) :
  forall i,
    everyFrom (S i)
      (fun n k =>
         match nth_error (y :: b) k with
         | Some m => String.eqb (flow_id n) (flow_id m)
         | None => false
         end) a
    = everyFrom i
        (fun n k =>
           match nth_error b k with
           | Some m => String.eqb (flow_id n) (flow_id m)
           | None => false
           end) a.
Proof.
  induction a as [|x a IH]; intros i; [reflexivity|].
  cbn [everyFrom nth_error]. now rewrite IH.
Qed.

Lemma sameNodeSet_cons (x y : FlowNode) (a b : list FlowNode) :
  sameNodeSet (x :: a) (y :: b)
  = String.eqb (flow_id x) (flow_id y) && sameNodeSet a b.
Proof.
  unfold sameNodeSet. cbn [List.length everyFrom nth_error Nat.eqb].
  rewrite everyFrom_shift.
  destruct (List.length a =? List.length b)%nat;
    destruct (String.eqb (flow_id x) (flow_id y)); reflexivity.
Qed.

Lemma sameNodeSet_ids (a : list FlowNode) :
  forall b, sameNodeSet a b = true <-> map flow_id a = map flow_id b.
Proof.
  induction a as [|x a IH]; intros [|y b].
  - split; reflexivity.
  - split; discriminate.
  - split; discriminate.
  - rewrite sameNodeSet_cons, andb_true_iff, IH, String.eqb_eq. simpl.
    split; [intros [-> ->]; reflexivity | intros H; inversion H; auto].
Qed.

(** X20: two node lists are the same node set exactly when they hold the
    same ids in the same order; nothing else of the nodes is compared. *)
Theorem sameNodeSet_iff_same_ids (a b : list FlowNode) :
  sameNodeSet a b = true <-> map flow_id a = map flow_id b.
Proof. apply sameNodeSet_ids. Qed.

Lemma mapFrom_map {A B C : Type} (f : A -> nat -> B) (g : B -> C) (h : A -> C)
    (l : list A) :
  (forall x i, g (f x i) = h x) ->
  forall i, map g (mapFrom i f l) = map h l.
Proof.
  intros H. induction l as [|x l IH]; intros i; [reflexivity|].
  cbn [mapFrom map]. now rewrite H, IH.
Qed.

Lemma mapFrom_ids (saved : list (string * Position))
    (dbNodeTypes : list DbNodeType) (nodes : list DbNode) :
  map flow_id (builtFlowNodes (Some nodes) saved dbNodeTypes)
  = map node_id nodes.
Proof.
  unfold builtFlowNodes. apply mapFrom_map. reflexivity.
Qed.

(** X21: when the node sync runs and the rebuilt list has the same ids
    in the same order as the local nodes, the local nodes are kept: a
    rebuild after a change of names, types, statuses, node types or saved
    positions does not replace them. *)
Theorem syncNodes_keeps_same_ids
    (prev : list FlowNode) (nodes : list DbNode)
    (saved : list (string * Position)) (dbNodeTypes : list DbNodeType) :
  map flow_id prev = map node_id nodes ->
  syncNodes prev (builtFlowNodes (Some nodes) saved dbNodeTypes) = prev.
Proof.
  intros H. unfold syncNodes.
  replace (sameNodeSet prev (builtFlowNodes (Some nodes) saved dbNodeTypes))
    with true; [reflexivity|].
  symmetry. apply sameNodeSet_ids. now rewrite mapFrom_ids.
Qed.

Lemma mapFrom_nth {A B : Type} (f : A -> nat -> B) (l : list A) :
  forall i k,
    nth_error (mapFrom i f l) k
    = option_map (fun x => f x (i + k)%nat) (nth_error l k).
Proof.
  induction l as [|x l IH]; intros i [|k]; try reflexivity.
  - simpl. now rewrite Nat.add_0_r.
  - cbn [mapFrom nth_error]. rewrite IH. now rewrite Nat.add_succ_comm.
Qed.

Lemma grid_injective (i j : nat) :
  inject_Z (Z.of_nat (i mod 4)) * 250 + 100
  == inject_Z (Z.of_nat (j mod 4)) * 250 + 100 ->
  inject_Z (Z.of_nat (i / 4)) * 200 + 100
  == inject_Z (Z.of_nat (j / 4)) * 200 + 100 ->
  i = j.
Proof.
  intros Hx Hy.
  assert (Ex : inject_Z (Z.of_nat (i mod 4)) == inject_Z (Z.of_nat (j mod 4)))
    by lra.
  assert (Ey : inject_Z (Z.of_nat (i / 4)) == inject_Z (Z.of_nat (j / 4)))
    by lra.
  unfold Qeq in Ex, Ey. cbn [inject_Z Qnum Qden] in Ex, Ey.
  assert (Em : (i mod 4 = j mod 4)%nat) by lia.
  assert (Ed : (i / 4 = j / 4)%nat) by lia.
  rewrite (Nat.div_mod_eq i 4), (Nat.div_mod_eq j 4). now rewrite Em, Ed.
Qed.

(** X22: nodes that have no saved position never lie on top of each
    other: two different nodes of the built list whose ids have no saved
    position are placed at different points of the grid. *)
Theorem default_positions_distinct
    (nodes : list DbNode) (saved : list (string * Position))
    (dbNodeTypes : list DbNodeType) (i j : nat) (n m : FlowNode) :
  nth_error (builtFlowNodes (Some nodes) saved dbNodeTypes) i = Some n ->
  nth_error (builtFlowNodes (Some nodes) saved dbNodeTypes) j = Some m ->
  savedPosition saved (flow_id n) = None ->
  savedPosition saved (flow_id m) = None ->
  i <> j ->
  ~ (pos_x (position n) == pos_x (position m) /\
     pos_y (position n) == pos_y (position m)).
Proof.
  unfold builtFlowNodes. rewrite !mapFrom_nth. simpl.
  intros Hn Hm Sn Sm Hij [Hx Hy].
  destruct (nth_error nodes i) as [x|]; [|discriminate].
  destruct (nth_error nodes j) as [y|]; [|discriminate].
  simpl in Hn, Hm. inversion Hn; subst n. inversion Hm; subst m.
  cbn [flow_id position] in *. rewrite Sn in Hx, Hy. rewrite Sm in Hx, Hy.
  cbn [pos_x pos_y] in Hx, Hy. apply Hij. now apply grid_injective.
Qed.

Lemma default_positions_distinct_witness :
  exists n m,
    nth_error (builtFlowNodes (Some fiveNodes) [] []) 0 = Some n /\
    nth_error (builtFlowNodes (Some fiveNodes) [] []) 4 = Some m /\
    pos_x (position n) == pos_x (position m) /\
    ~ pos_y (position n) == pos_y (position m).
Proof.
  eexists. eexists.
  split; [reflexivity|]. split; [reflexivity|].
  split; [vm_compute; reflexivity|].
  intros Hy.
  refine (default_positions_distinct fiveNodes [] [] 0 4 _ _ eq_refl eq_refl
            eq_refl eq_refl _ (conj _ Hy)).
  - discriminate.
  - vm_compute. reflexivity.
Defined.

Lemma syncNodes_keeps_same_ids_witness :
  syncNodes (builtFlowNodes (Some fiveNodes) [] [])
    (builtFlowNodes
       (Some (map (fun n => mkNode (node_id n) (Some "warehouse"%string))
                fiveNodes))
       [("a"%string, {| pos_x := 0; pos_y := 0 |})] [])
  = builtFlowNodes (Some fiveNodes) [] [].
Proof.
  apply (syncNodes_keeps_same_ids (builtFlowNodes (Some fiveNodes) [] [])
           (map (fun n => mkNode (node_id n) (Some "warehouse"%string)) fiveNodes)
           [("a"%string, {| pos_x := 0; pos_y := 0 |})] []).
  reflexivity.
Defined.
